(** * CodeChecker VS Code plugin: the executor bridge

    A shallow embedding of [src/backend/executor/bridge.ts] (class
    [ExecutorBridge]) together with the executor manager it drives, and the
    properties of the analysis-request paths.

    The bridge is stateful glue: it reads the editor's workspace and
    settings, probes the file system, fires events, shows warnings and calls
    the executor manager.  Every method is embedded as a state transformer
    over [State], reading an immutable snapshot [World] of the editor. *)

From Stdlib Require Import ZArith Ascii String List SpecFloat.
From stdpp Require Import base option list strings gmap pretty.

Local Open Scope string_scope.

(** ** JavaScript values and string helpers *)

(** What a settings lookup can yield.  A number is an IEEE 754 double:
    signed zeros, infinities, NaN, or a signed mantissa times a power of
    two. *)
Inductive JsValue : Type :=
  | JsNull
  | JsBool (b : bool)
  | JsNumber (n : spec_float)
  | JsString (s : string).

(** [x ? a : b] and [!x] on something read from the settings;
    [None] is [undefined]. *)
Definition truthy (v : option JsValue) : bool :=
  match v with
  | None | Some JsNull => false
  | Some (JsBool b) => b
  | Some (JsNumber (S754_zero _)) | Some (JsNumber S754_nan) => false
  | Some (JsNumber _) => true
  | Some (JsString s) => negb (String.eqb s EmptyString)
  end.

(** String concatenation ['-j ' + ccThreads] on a truthy value;
    [numberToString] is the language's [Number::toString]. *)
Definition js_to_string (numberToString : spec_float -> string)
    (v : JsValue) : string :=
  match v with
  | JsNull => "null"
  | JsBool true => "true"
  | JsBool false => "false"
  | JsNumber n => numberToString n
  | JsString s => s
  end.

(** [if (filePath)] for [string | undefined]: the empty string is falsy. *)
Definition truthy_path (p : option string) : bool :=
  match p with
  | Some s => negb (String.eqb s EmptyString)
  | None => false
  end.

Definition dquote : string := String (ascii_of_nat 34) EmptyString.
Definition newline : string := String (ascii_of_nat 10) EmptyString.

(** The template [`"${s}"`]. *)
Definition quoted (s : string) : string := dquote +:+ s +:+ dquote.

(** [Array.prototype.join]. *)
Fixpoint join (sep : string) (l : list string) : string :=
  match l with
  | [] => EmptyString
  | [x] => x
  | x :: rest => x +:+ sep +:+ join sep rest
  end.

Fixpoint last_char (s : string) : option ascii :=
  match s with
  | EmptyString => None
  | String c EmptyString => Some c
  | String _ rest => last_char rest
  end.

Definition ends_with_newline (s : string) : bool :=
  match last_char s with
  | Some c => Ascii.eqb c (ascii_of_nat 10)
  | None => false
  end.

Definition starts_with (pre s : string) : bool := String.prefix pre s.

(** ** The executor manager

    [ScheduledProcess], [ProcessType] and [ExtensionApi.executorManager]
    are imported by the bridge from the sibling module ['.'] and ['../api'];
    the bridge constructs processes and calls [addToQueue], [clearQueue],
    [killProcess] and reads [activeProcess]. *)

(** Modelled from the spec: the enumeration [ProcessType] (section 3,
    ScheduledUnit.tag: "analyze, logGeneration, ..."); the bridge names only
    [ProcessType.analyze]. *)
Inductive ProcessType : Type :=
  | analyze
  | logGeneration
  | otherProcess.

#[global] Instance ProcessType_eq_dec : EqDecision ProcessType.
Proof. solve_decision. Defined.

Record ProcessParameters : Type := { processType : ProcessType }.

(** [new ScheduledProcess(commandLine, { processType })]. *)
Record ScheduledProcess : Type := {
  commandLine : string;
  processParameters : ProcessParameters;
}.

(** Modelled from the spec: the insertion policies of section 4.3
    (append, prepend, replaceAll); the bridge passes ['prepend'] and
    ['replace']. *)
Inductive Policy : Type :=
  | append
  | prepend
  | replace.

(** Modelled from the spec: the completion outcomes of section 4.2. *)
Inductive Outcome : Type :=
  | exitedNormally (code : Z)
  | exitedViaSignal
  | cancelled
  | spawnFailed.

(** What the process runner was asked to do and what it reported. *)
Inductive RunnerEvent : Type :=
  | Started (p : ScheduledProcess)
  | CancelRequested (p : ScheduledProcess)
  | Completed (p : ScheduledProcess) (o : Outcome).

(** Modelled from the spec: the execution queue of section 3 ([pending],
    [active]) and the process runner of section 4.2, which is not under
    [src/].  [liveProcesses] are the runner's handles between [start] and
    their completion signal; [runnerLog] is the runner's history, oldest
    first. *)
Record ExecutorManager : Type := {
  queue : list ScheduledProcess;
  activeProcess : option ScheduledProcess;
  liveProcesses : list ScheduledProcess;
  runnerLog : list RunnerEvent;
}.

Definition emptyManager : ExecutorManager :=
  {| queue := []; activeProcess := None; liveProcesses := []; runnerLog := [] |}.

Module Manager.

Definition tagOf (p : ScheduledProcess) : ProcessType :=
  processType (processParameters p).

(** Modelled from the spec: [enqueue(unit, policy)], section 4.3. *)
Definition enqueue (p : ScheduledProcess) (policy : Policy)
    (m : ExecutorManager) : ExecutorManager :=
  {| queue := match policy with
              | append => queue m ++ [p]
              | prepend => p :: queue m
              | replace => [p]
              end;
     activeProcess := activeProcess m;
     liveProcesses := liveProcesses m;
     runnerLog := runnerLog m |}.

(** Modelled from the spec: [clearByTag(tag)], section 4.3; the bridge
    calls it as [clearQueue(type)]. *)
Definition clearQueue (tag : ProcessType) (m : ExecutorManager)
    : ExecutorManager :=
  {| queue := filter (fun p => tagOf p <> tag) (queue m);
     activeProcess := activeProcess m;
     liveProcesses := liveProcesses m;
     runnerLog := runnerLog m |}.

(** Modelled from the spec: [takeNext()], section 4.3: the head of
    [pending] if and only if [active] is empty. *)
Definition takeNext (m : ExecutorManager)
    : option (ScheduledProcess * ExecutorManager) :=
  match activeProcess m, queue m with
  | None, p :: rest =>
      Some (p, {| queue := rest; activeProcess := None;
                  liveProcesses := liveProcesses m;
                  runnerLog := runnerLog m |})
  | _, _ => None
  end.

(** Modelled from the spec: [markActive(unit)] and [clearActive()]. *)
Definition markActive (p : ScheduledProcess) (m : ExecutorManager)
    : ExecutorManager :=
  {| queue := queue m; activeProcess := Some p;
     liveProcesses := liveProcesses m; runnerLog := runnerLog m |}.

Definition clearActive (m : ExecutorManager) : ExecutorManager :=
  {| queue := queue m; activeProcess := None;
     liveProcesses := liveProcesses m; runnerLog := runnerLog m |}.

(** Modelled from the spec: the runner's [start(unit)], section 4.2.  It
    creates a handle unconditionally; a spawn failure is one of the
    completion outcomes of that handle. *)
Definition start (p : ScheduledProcess) (m : ExecutorManager)
    : ExecutorManager :=
  {| queue := queue m; activeProcess := activeProcess m;
     liveProcesses := liveProcesses m ++ [p];
     runnerLog := runnerLog m ++ [Started p] |}.

(** Modelled from the spec: [drain], section 4.4: "while takeNext()
    yields a unit, mark it active, start it". *)
Fixpoint drain_loop (fuel : nat) (m : ExecutorManager) : ExecutorManager :=
  match fuel with
  | O => m
  | S fuel' =>
      match takeNext m with
      | Some (p, m') => drain_loop fuel' (start p (markActive p m'))
      | None => m
      end
  end.

Definition drain (m : ExecutorManager) : ExecutorManager :=
  drain_loop (S (length (queue m))) m.

(** Modelled from the spec: [submit(unit, policy)], section 4.4:
    "delegates to enqueue, then triggers a drain attempt"; the bridge
    calls it as [addToQueue(process, policy)]. *)
Definition addToQueue (p : ScheduledProcess) (policy : Policy)
    (m : ExecutorManager) : ExecutorManager :=
  drain (enqueue p policy m).

(** Modelled from the spec: [cancel(handle)] on the active process,
    section 4.2: a request only, the process stays live until its
    completion signal; nothing to cancel when nothing is active. *)
Definition killProcess (m : ExecutorManager) : ExecutorManager :=
  match activeProcess m with
  | Some a =>
      {| queue := queue m; activeProcess := activeProcess m;
         liveProcesses := liveProcesses m;
         runnerLog := runnerLog m ++ [CancelRequested a] |}
  | None => m
  end.

(** Modelled from the spec: the completion signal of the [i]-th live
    handle, section 4.4: "on that signal clear active and recurse into
    drain".  No signal fires for a handle that does not exist. *)
Definition complete (i : nat) (o : Outcome) (m : ExecutorManager)
    : ExecutorManager :=
  match liveProcesses m !! i with
  | Some p =>
      drain (clearActive
               {| queue := queue m; activeProcess := activeProcess m;
                  liveProcesses := delete i (liveProcesses m);
                  runnerLog := runnerLog m ++ [Completed p o] |})
  | None => m
  end.

(** Modelled from the spec: [stop(tag)], section 4.4. *)
Definition stop (tag : ProcessType) (m : ExecutorManager)
    : ExecutorManager :=
  let m1 := clearQueue tag m in
  match activeProcess m1 with
  | Some a => if decide (tagOf a = tag) then killProcess m1 else m1
  | None => m1
  end.

(** What can happen to the manager, one atomic step at a time
    (section 5: every mutation is atomic with respect to the others). *)
Inductive Event : Type :=
  | Submit (p : ScheduledProcess) (policy : Policy)
  | ClearQueue (tag : ProcessType)
  | KillProcess
  | Stop (tag : ProcessType)
  | Complete (i : nat) (o : Outcome).

Definition step (m : ExecutorManager) (e : Event) : ExecutorManager :=
  match e with
  | Submit p policy => addToQueue p policy m
  | ClearQueue tag => clearQueue tag m
  | KillProcess => killProcess m
  | Stop tag => stop tag m
  | Complete i o => complete i o m
  end.

(** Every state visited while [es] is processed, the first one included. *)
Fixpoint states (es : list Event) (m : ExecutorManager)
    : list ExecutorManager :=
  match es with
  | [] => [m]
  | e :: rest => m :: states rest (step m e)
  end.

End Manager.

(** ** The editor as the bridge sees it *)

(** [vscode.Uri]; the bridge reads only [fsPath]. *)
Record Uri : Type := { fsPath : string }.

(** A snapshot of everything the bridge reads and does not own.
    [workspaceFolders] holds [folder.uri.fsPath] of each folder, the empty
    list standing also for [undefined]; [configuration] holds the effective
    settings under their full dotted names; [existsSync] is [fs.existsSync];
    [showOpenDialog] is what the user picks in the file dialog. *)
Record World : Type := {
  workspaceFolders : list string;
  configuration : gmap string JsValue;
  existsSync : string -> bool;
  activeTextEditor : option Uri;
  showOpenDialog : option (list Uri);
}.

Definition settingName (section key : string) : string :=
  section +:+ "." +:+ key.

(** [workspace.getConfiguration(section).get(key)]. *)
Definition getConfiguration (w : World) (section key : string)
    : option JsValue :=
  configuration w !! settingName section key.

(** A file system watcher made by [workspace.createFileSystemWatcher]. *)
Record FileSystemWatcher : Type := {
  globPattern : string;
  watcherDisposed : bool;
}.

Inductive FsEventKind : Type :=
  | DidCreate
  | DidDelete.

#[global] Instance FsEventKind_eq_dec : EqDecision FsEventKind.
Proof. solve_decision. Defined.

(** A subscription returned by [watch.onDidCreate] or [watch.onDidDelete];
    every one the bridge makes has the callback
    [() => this._databaseLocationChanged.fire()]. *)
Record Listener : Type := {
  onWatcher : nat;
  eventKind : FsEventKind;
  listenerDisposed : bool;
}.

(** The bridge's own fields, what it has emitted so far, and the objects of
    the host it holds references to.  [databaseWatches] and [databaseEvents]
    are references (indices) into the stores [watchers] and [listeners]:
    disposing through one reference is seen through every other. *)
Record State : Type := {
  databaseWatches : list nat;
  databaseEvents : list nat;
  databasePaths : list (option string);
  bridgeMessages : list string;
  databaseLocationChanged : nat;
  warningMessages : list string;
  watchers : list FileSystemWatcher;
  listeners : list Listener;
  executorManager : ExecutorManager;
}.

(** The fields as the class initialises them, before the constructor body. *)
Definition initialState : State :=
  {| databaseWatches := []; databaseEvents := []; databasePaths := [];
     bridgeMessages := []; databaseLocationChanged := 0;
     warningMessages := []; watchers := []; listeners := [];
     executorManager := emptyManager |}.

(** *** A small state monad for the bridge's methods *)

Definition M (A : Type) : Type := State -> A * State.

#[global] Instance M_ret : MRet M := fun A (a : A) s => (a, s).

#[global] Instance M_bind : MBind M := fun A B (k : A -> M B) (c : M A) s =>
  let (a, s') := c s in k a s'.

Fixpoint forEach {A : Type} (l : list A) (body : A -> M unit) : M unit :=
  match l with
  | [] => mret tt
  | x :: rest => body x;; forEach rest body
  end.

(** [this._bridgeMessages.fire(msg)]. *)
Definition fireBridgeMessage (msg : string) : M unit := fun s =>
  (tt, {| databaseWatches := databaseWatches s;
          databaseEvents := databaseEvents s;
          databasePaths := databasePaths s;
          bridgeMessages := bridgeMessages s ++ [msg];
          databaseLocationChanged := databaseLocationChanged s;
          warningMessages := warningMessages s;
          watchers := watchers s;
          listeners := listeners s;
          executorManager := executorManager s |}).

(** [this._databaseLocationChanged.fire()]. *)
Definition fireDatabaseLocationChanged : M unit := fun s =>
  (tt, {| databaseWatches := databaseWatches s;
          databaseEvents := databaseEvents s;
          databasePaths := databasePaths s;
          bridgeMessages := bridgeMessages s;
          databaseLocationChanged := S (databaseLocationChanged s);
          warningMessages := warningMessages s;
          watchers := watchers s;
          listeners := listeners s;
          executorManager := executorManager s |}).

(** [window.showWarningMessage(msg)]. *)
Definition showWarningMessage (msg : string) : M unit := fun s =>
  (tt, {| databaseWatches := databaseWatches s;
          databaseEvents := databaseEvents s;
          databasePaths := databasePaths s;
          bridgeMessages := bridgeMessages s;
          databaseLocationChanged := databaseLocationChanged s;
          warningMessages := warningMessages s ++ [msg];
          watchers := watchers s;
          listeners := listeners s;
          executorManager := executorManager s |}).

(** A call on [ExtensionApi.executorManager]. *)
Definition onManager (f : ExecutorManager -> ExecutorManager) : M unit :=
  fun s =>
  (tt, {| databaseWatches := databaseWatches s;
          databaseEvents := databaseEvents s;
          databasePaths := databasePaths s;
          bridgeMessages := bridgeMessages s;
          databaseLocationChanged := databaseLocationChanged s;
          warningMessages := warningMessages s;
          watchers := watchers s;
          listeners := listeners s;
          executorManager := f (executorManager s) |}).

Definition getActiveProcess : M (option ScheduledProcess) :=
  fun s => (activeProcess (executorManager s), s).

Definition getDatabasePaths : M (list (option string)) :=
  fun s => (databasePaths s, s).

(** [x.dispose()] on a stored object, through a reference. *)
Definition disposeWatcher (fw : FileSystemWatcher) : FileSystemWatcher :=
  {| globPattern := globPattern fw; watcherDisposed := true |}.

Definition disposeListener (l : Listener) : Listener :=
  {| onWatcher := onWatcher l; eventKind := eventKind l;
     listenerDisposed := true |}.

(** [this.databaseEvents.forEach(watch => watch.dispose())]. *)
Definition disposeDatabaseEvents : M unit := fun s =>
  (tt, {| databaseWatches := databaseWatches s;
          databaseEvents := databaseEvents s;
          databasePaths := databasePaths s;
          bridgeMessages := bridgeMessages s;
          databaseLocationChanged := databaseLocationChanged s;
          warningMessages := warningMessages s;
          watchers := watchers s;
          listeners :=
            foldl (fun ls i => alter disposeListener i ls)
                  (listeners s) (databaseEvents s);
          executorManager := executorManager s |}).

(** [this.databaseWatches.forEach(watch => watch.dispose())]. *)
Definition disposeDatabaseWatches : M unit := fun s =>
  (tt, {| databaseWatches := databaseWatches s;
          databaseEvents := databaseEvents s;
          databasePaths := databasePaths s;
          bridgeMessages := bridgeMessages s;
          databaseLocationChanged := databaseLocationChanged s;
          warningMessages := warningMessages s;
          watchers :=
            foldl (fun ws i => alter disposeWatcher i ws)
                  (watchers s) (databaseWatches s);
          listeners := listeners s;
          executorManager := executorManager s |}).

(** [this.databasePaths = paths]. *)
Definition setDatabasePaths (paths : list (option string)) : M unit :=
  fun s =>
  (tt, {| databaseWatches := databaseWatches s;
          databaseEvents := databaseEvents s;
          databasePaths := paths;
          bridgeMessages := bridgeMessages s;
          databaseLocationChanged := databaseLocationChanged s;
          warningMessages := warningMessages s;
          watchers := watchers s;
          listeners := listeners s;
          executorManager := executorManager s |}).

(** [this.databaseWatches = patterns.map(p =>
    workspace.createFileSystemWatcher(p))]: each new watcher is stored
    and referred to by its index. *)
Definition createDatabaseWatches (patterns : list string) : M unit :=
  fun s =>
  (tt, {| databaseWatches := seq (length (watchers s)) (length patterns);
          databaseEvents := databaseEvents s;
          databasePaths := databasePaths s;
          bridgeMessages := bridgeMessages s;
          databaseLocationChanged := databaseLocationChanged s;
          warningMessages := warningMessages s;
          watchers :=
            watchers s ++
            map (fun p => {| globPattern := p; watcherDisposed := false |})
                patterns;
          listeners := listeners s;
          executorManager := executorManager s |}).

(** [this.databaseEvents.push(watch.onDidCreate(...))] and the same for
    [onDidDelete]. *)
Definition pushDatabaseEvent (watch : nat) (k : FsEventKind) : M unit :=
  fun s =>
  (tt, {| databaseWatches := databaseWatches s;
          databaseEvents := databaseEvents s ++ [length (listeners s)];
          databasePaths := databasePaths s;
          bridgeMessages := bridgeMessages s;
          databaseLocationChanged := databaseLocationChanged s;
          warningMessages := warningMessages s;
          watchers := watchers s;
          listeners :=
            listeners s ++
            [{| onWatcher := watch; eventKind := k;
                listenerDisposed := false |}];
          executorManager := executorManager s |}).

Definition getDatabaseWatches : M (list nat) :=
  fun s => (databaseWatches s, s).

(** ** The extension manifest *)

(** The [contributes.configuration.properties] of [package.json]. *)
Definition manifestProperties : list string :=
  [ "codechecker.executor.executablePath";
    "codechecker.backend.outputFolder";
    "codechecker.backend.compilationDatabasePath";
    "codechecker.executor.arguments";
    "codechecker.executor.threadCount";
    "codechecker.executor.logBuildCommand";
    "codechecker.executor.logArguments";
    "codechecker.editor.showDatabaseDialog";
    "codechecker.editor.enableCodeLens";
    "codechecker.executor.runOnSave" ].

(** Two snapshots that differ at most in the values of the settings
    [names]. *)
Definition sameExceptSettings (names : list string) (w1 w2 : World) : Prop :=
  workspaceFolders w1 = workspaceFolders w2 /\
  existsSync w1 = existsSync w2 /\
  activeTextEditor w1 = activeTextEditor w2 /\
  showOpenDialog w1 = showOpenDialog w2 /\
  forall name, name ∉ names ->
    configuration w1 !! name = configuration w2 !! name.

(** ** Concrete instances used to exercise the statements *)

Module Sample.

(** A settings reader that looks the setting up and substitutes nothing:
    a non-empty string is returned as it is, anything else is
    [undefined]. *)
Definition getConfig (w : World) (category name : string) : option string :=
  match getConfiguration w category name with
  | Some (JsString v) =>
      if String.eqb v EmptyString then None else Some v
  | _ => None
  end.

Definition pathJoin (a b : string) : string := a +:+ "/" +:+ b.

(** A watcher that reports exactly the path it was made for. *)
Definition matches (pattern path : string) : bool := String.eqb pattern path.

(** [Uri.file] for the paths used below: a path is made absolute. *)
Definition uriFile (path : string) : Uri :=
  {| fsPath := if String.prefix "/" path then path else "/" +:+ path |}.

(** [Number::toString] for the numbers used below: zeros, NaN, the
    infinities and integers below ten to the 21 are printed as the language
    prints them; no other number occurs in the instances. *)
Definition numberToString (n : spec_float) : string :=
  match n with
  | S754_zero _ => "0"
  | S754_nan => "NaN"
  | S754_infinity false => "Infinity"
  | S754_infinity true => "-Infinity"
  | S754_finite sign m e =>
      (if sign then "-" else EmptyString) +:+
      pretty (Z.pos m * 2 ^ e)%Z
  end.

Definition file : Uri := {| fsPath := "/proj/main.c" |}.

(** No folder is open. *)
Definition noFolder : World :=
  {| workspaceFolders := [];
     configuration := {[ "codechecker.executor.runOnSave" := JsBool true ]};
     existsSync := fun _ => false;
     activeTextEditor := Some file;
     showOpenDialog := None |}.

(** A folder is open and no compilation database exists. *)
Definition noDatabase : World :=
  {| workspaceFolders := ["/proj"];
     configuration := {[ "codechecker.executor.runOnSave" := JsBool true ]};
     existsSync := fun _ => false;
     activeTextEditor := Some file;
     showOpenDialog := None |}.

(** A folder is open and [.codechecker/compile_commands.json] exists. *)
Definition withDatabase : World :=
  {| workspaceFolders := ["/proj"];
     configuration := {[ "codechecker.executor.runOnSave" := JsBool true ]};
     existsSync :=
       String.eqb "/proj/.codechecker/compile_commands.json";
     activeTextEditor := Some file;
     showOpenDialog := None |}.

(** As [withDatabase], with the database setting the manifest declares
    pointing elsewhere. *)
Definition withCustomDatabase : World :=
  {| workspaceFolders := ["/proj"];
     configuration :=
       <[ "codechecker.backend.compilationDatabasePath" :=
            JsString "/elsewhere/compile_commands.json" ]>
       (configuration withDatabase);
     existsSync :=
       String.eqb "/proj/.codechecker/compile_commands.json";
     activeTextEditor := Some file;
     showOpenDialog := None |}.

(** As [withDatabase], with the two log settings given values. *)
Definition withLogSettings : World :=
  {| workspaceFolders := ["/proj"];
     configuration :=
       <[ "codechecker.executor.logBuildCommand" := JsString "ninja" ]>
       (<[ "codechecker.executor.logArguments" := JsString "--verbose" ]>
       (configuration withDatabase));
     existsSync :=
       String.eqb "/proj/.codechecker/compile_commands.json";
     activeTextEditor := Some file;
     showOpenDialog := None |}.

(** As [withDatabase], with one file picked in the dialog. *)
Definition withPickedFile : World :=
  {| workspaceFolders := ["/proj"];
     configuration := configuration withDatabase;
     existsSync :=
       String.eqb "/proj/.codechecker/compile_commands.json";
     activeTextEditor := None;
     showOpenDialog := Some [file] |}.

Definition logUnit : ScheduledProcess :=
  {| commandLine := "CodeChecker log";
     processParameters := {| processType := logGeneration |} |}.

Definition analyzeUnit : ScheduledProcess :=
  {| commandLine := "CodeChecker analyze";
     processParameters := {| processType := analyze |} |}.

(** An analysis is running, and a log run and another analysis wait. *)
Definition busyManager : ExecutorManager :=
  {| queue := [logUnit; analyzeUnit];
     activeProcess := Some analyzeUnit;
     liveProcesses := [analyzeUnit];
     runnerLog := [Started analyzeUnit] |}.

(** The bridge as its constructor leaves it in [noDatabase] and in
    [withDatabase]: three paths tried, the two that are set watched. *)
Definition readyState : State :=
  {| databaseWatches := [0; 1];
     databaseEvents := [0; 1; 2; 3];
     databasePaths :=
       [ None;
         Some "/proj/.codechecker/compile_commands.json";
         Some "/proj/.codechecker/compile_cmd.json" ];
     bridgeMessages := [];
     databaseLocationChanged := 1;
     warningMessages := [];
     watchers :=
       [ {| globPattern := "/proj/.codechecker/compile_commands.json";
            watcherDisposed := false |};
         {| globPattern := "/proj/.codechecker/compile_cmd.json";
            watcherDisposed := false |} ];
     listeners :=
       [ {| onWatcher := 0; eventKind := DidCreate; listenerDisposed := false |};
         {| onWatcher := 0; eventKind := DidDelete; listenerDisposed := false |};
         {| onWatcher := 1; eventKind := DidCreate; listenerDisposed := false |};
         {| onWatcher := 1; eventKind := DidDelete; listenerDisposed := false |} ];
     executorManager := emptyManager |}.

(** [readyState] while [busyManager] is the manager's state. *)
Definition busyState : State :=
  {| databaseWatches := databaseWatches readyState;
     databaseEvents := databaseEvents readyState;
     databasePaths := databasePaths readyState;
     bridgeMessages := [];
     databaseLocationChanged := 1;
     warningMessages := [];
     watchers := watchers readyState;
     listeners := listeners readyState;
     executorManager := busyManager |}.

End Sample.

(** ** The bridge *)

Section Bridge.

(** [getConfigAndReplaceVariables(category, name)] of [utils/config] and
    [path.join] of Node are imported by the bridge and are not part of it;
    [watchMatches pattern path] says whether a watcher made for [pattern]
    reports events of [path]; [Number_toString] is how the language prints
    a number; [Uri_file] is [Uri.file] of the editor, which makes a [Uri]
    of a path (and need not keep the path as given). *)
Variable getConfigAndReplaceVariables :
  World -> string -> string -> option string.
Variable path_join : string -> string -> string.
Variable watchMatches : string -> string -> bool.
Variable Number_toString : spec_float -> string.
Variable Uri_file : string -> Uri.

(** The first loop of [getCompileCommandsPath]: the first path that is
    truthy and exists. *)
Fixpoint firstExisting (w : World) (paths : list (option string))
    : option string :=
  match paths with
  | [] => None
  | filePath :: rest =>
      match filePath with
      | Some p =>
          if negb (String.eqb p EmptyString) && existsSync w p
          then Some p
          else firstExisting w rest
      | None => firstExisting w rest
      end
  end.

Definition getCompileCommandsPath (w : World) : M (option string) :=
  match workspaceFolders w with
  | [] => mret None
  | _ :: _ =>
      paths ← getDatabasePaths;
      match firstExisting w paths with
      | Some filePath =>
          fireBridgeMessage
            (">>> Database found at path: " +:+ filePath +:+ newline);;
          mret (Some filePath)
      | None =>
          fireBridgeMessage
            (">>> No database found in the following paths:" +:+ newline);;
          forEach paths (fun filePath =>
            match filePath with
            | Some p =>
                if negb (String.eqb p EmptyString)
                then fireBridgeMessage (">>>   " +:+ p +:+ newline)
                else fireBridgeMessage
                       (">>>   <no path set in settings>" +:+ newline)
            | None =>
                fireBridgeMessage
                  (">>>   <no path set in settings>" +:+ newline)
            end);;
          mret None
      end
  end.

(** [getConfigAndReplaceVariables('codechecker.backend', 'outputFolder')
    ?? path.join(workspaceFolder, '.codechecker')]. *)
Definition outputFolder (w : World) (workspaceFolder : string) : string :=
  default (path_join workspaceFolder ".codechecker")
    (getConfigAndReplaceVariables w "codechecker.backend" "outputFolder").

Definition executablePath (w : World) : string :=
  default "CodeChecker"
    (getConfigAndReplaceVariables w "codechecker.executor" "executablePath").

Definition getAnalyzeCmdLine (w : World) (files : list Uri)
    : M (option string) :=
  match workspaceFolders w with
  | [] => mret None
  | workspaceFolder :: _ =>
      let ccPath := executablePath w in
      let ccFolder := outputFolder w workspaceFolder in
      let ccArguments :=
        default EmptyString
          (getConfigAndReplaceVariables w "codechecker.executor" "arguments")
      in
      let ccThreads :=
        getConfiguration w "codechecker.executor" "threadCount" in
      ccCompileCmd ← getCompileCommandsPath w;
      match ccCompileCmd with
      | None =>
          showWarningMessage
            "No compilation database found, CodeChecker not started - see logs for details";;
          mret None
      | Some ccCompileCmd =>
          let filePaths :=
            match files with
            | [] => EmptyString
            | _ :: _ =>
                "--file " +:+
                join " " (map (fun uri => quoted (fsPath uri)) files)
            end in
          mret (Some (join " "
            [ ccPath +:+ " analyze";
              quoted ccCompileCmd;
              "--output " +:+ quoted ccFolder;
              (if truthy ccThreads
               then "-j " +:+ from_option (js_to_string Number_toString) EmptyString ccThreads
               else EmptyString);
              ccArguments;
              filePaths ]))
      end
  end.

Definition getLogCmdLine (w : World) : option string :=
  match workspaceFolders w with
  | [] => None
  | workspaceFolder :: _ =>
      let ccPath := executablePath w in
      let ccFolder := outputFolder w workspaceFolder in
      let ccCompileCmd := path_join ccFolder "compile_commands.json" in
      Some (join " "
        [ ccPath +:+ " log";
          "--output " +:+ quoted ccCompileCmd;
          "--build " +:+ quoted "make" ])
  end.

Definition analyzeProcess (cmdLine : string) : ScheduledProcess :=
  {| commandLine := cmdLine;
     processParameters := {| processType := analyze |} |}.

Definition analyzeFile (w : World) (file : Uri) : M unit :=
  cmdLine ← getAnalyzeCmdLine w [file];
  match cmdLine with
  | None => mret tt
  | Some cmdLine =>
      onManager (Manager.addToQueue (analyzeProcess cmdLine) prepend)
  end.

Definition analyzeCurrentFile (w : World) : M unit :=
  match activeTextEditor w with
  | Some currentFile => analyzeFile w currentFile
  | None => mret tt
  end.

Definition analyzeOnSave (w : World) : M unit :=
  let canAnalyzeOnSave :=
    truthy (getConfiguration w "codechecker.executor" "runOnSave") in
  ccPath ← getCompileCommandsPath w;
  let ccExists := bool_decide (ccPath <> None) in
  if negb canAnalyzeOnSave || negb ccExists
  then mret tt
  else analyzeCurrentFile w.

Definition selectAndAnalyzeFile (w : World) (files : list string)
    : M unit :=
  match files with
  | _ :: _ => forEach files (fun file => analyzeFile w (Uri_file file))
  | [] =>
      match showOpenDialog w with
      | Some selectedFiles => forEach selectedFiles (analyzeFile w)
      | None => mret tt
      end
  end.

Definition stopAnalysis : M unit :=
  onManager (Manager.clearQueue analyze);;
  active ← getActiveProcess;
  match active with
  | Some a =>
      if decide (processType (processParameters a) = analyze)
      then onManager Manager.killProcess
      else mret tt
  | None => mret tt
  end.

Definition analyzeProject (w : World) : M unit :=
  stopAnalysis;;
  cmdLine ← getAnalyzeCmdLine w [];
  match cmdLine with
  | None => mret tt
  | Some cmdLine =>
      onManager (Manager.addToQueue (analyzeProcess cmdLine) replace)
  end.

Definition updateDatabasePaths (w : World) : M unit :=
  match workspaceFolders w with
  | [] => mret tt
  | workspaceFolder :: _ =>
      let ccFolder := outputFolder w workspaceFolder in
      setDatabasePaths
        [ getConfigAndReplaceVariables w "codechecker.backend" "databasePath";
          Some (path_join ccFolder "compile_commands.json");
          Some (path_join ccFolder "compile_cmd.json") ];;
      disposeDatabaseEvents;;
      disposeDatabaseWatches;;
      paths ← getDatabasePaths;
      createDatabaseWatches (omap id paths);;
      watches ← getDatabaseWatches;
      forEach watches (fun watch =>
        pushDatabaseEvent watch DidCreate;;
        pushDatabaseEvent watch DidDelete);;
      fireDatabaseLocationChanged
  end.

(** The constructor: the subscriptions and command registrations only
    route later calls; the one effect on the bridge is the last line,
    [this.updateDatabasePaths()]. *)
Definition construct (w : World) : State :=
  (updateDatabasePaths w initialState).2.

Definition dispose : M unit :=
  disposeDatabaseEvents;;
  disposeDatabaseWatches.

(** *** The host delivering a file system event *)

(** Whether listener [l] is called when [path] is created ([DidCreate])
    or deleted ([DidDelete]). *)
Definition listens (s : State) (k : FsEventKind) (path : string)
    (l : Listener) : bool :=
  negb (listenerDisposed l) &&
  bool_decide (eventKind l = k) &&
  match watchers s !! onWatcher l with
  | Some fw => negb (watcherDisposed fw) && watchMatches (globPattern fw) path
  | None => false
  end.

(** The file [path] is created or deleted: every listener concerned runs
    its callback. *)
Definition fileSystemEvent (k : FsEventKind) (path : string) : M unit :=
  fun s =>
    forEach (filter (fun l => listens s k path l = true) (listeners s))
            (fun _ => fireDatabaseLocationChanged) s.

(** *** What can be asked of the bridge *)

Inductive Command : Type :=
  | AnalyzeCurrentFile
  | AnalyzeSelectedFiles (files : list string)
  | AnalyzeProject
  | StopAnalysis
  | SaveTextDocument
  | ChangeConfiguration
  | ProcessCompleted (i : nat) (o : Outcome).

(** One command, issued in the snapshot [w]. *)
Definition perform (w : World) (c : Command) : M unit :=
  match c with
  | AnalyzeCurrentFile => analyzeCurrentFile w
  | AnalyzeSelectedFiles files => selectAndAnalyzeFile w files
  | AnalyzeProject => analyzeProject w
  | StopAnalysis => stopAnalysis
  | SaveTextDocument => analyzeOnSave w
  | ChangeConfiguration => updateDatabasePaths w
  | ProcessCompleted i o => onManager (Manager.complete i o)
  end.

Fixpoint performAll (cs : list (World * Command)) (s : State) : State :=
  match cs with
  | [] => s
  | (w, c) :: rest => performAll rest (perform w c s).2
  end.

(** *** What the methods compute, in closed form *)

Definition addBridgeMessages (msgs : list string) (s : State) : State :=
  {| databaseWatches := databaseWatches s;
     databaseEvents := databaseEvents s;
     databasePaths := databasePaths s;
     bridgeMessages := bridgeMessages s ++ msgs;
     databaseLocationChanged := databaseLocationChanged s;
     warningMessages := warningMessages s;
     watchers := watchers s;
     listeners := listeners s;
     executorManager := executorManager s |}.

(** The result of [getCompileCommandsPath]. *)
Definition compileCommandsPath (w : World) (paths : list (option string))
    : option string :=
  match workspaceFolders w with
  | [] => None
  | _ :: _ => firstExisting w paths
  end.

(** The line [getCompileCommandsPath] writes for one path it tried. *)
Definition triedPathLine (filePath : option string) : string :=
  if truthy_path filePath
  then ">>>   " +:+ default EmptyString filePath +:+ newline
  else ">>>   <no path set in settings>" +:+ newline.

(** The messages [getCompileCommandsPath] fires. *)
Definition compileCommandsMessages (w : World)
    (paths : list (option string)) : list string :=
  match workspaceFolders w with
  | [] => []
  | _ :: _ =>
      match firstExisting w paths with
      | Some filePath =>
          [">>> Database found at path: " +:+ filePath +:+ newline]
      | None =>
          (">>> No database found in the following paths:" +:+ newline)
          :: map triedPathLine paths
      end
  end.

(** A well-formed line of the bridge's message channel. *)
Definition bridgeLine (msg : string) : Prop :=
  starts_with ">>> " msg = true /\ ends_with_newline msg = true.

(** The manager is consistent: the live handles are exactly the active
    unit. *)
Definition consistent (m : ExecutorManager) : Prop :=
  liveProcesses m = option_list (activeProcess m).

Definition isStarted (e : RunnerEvent) : bool :=
  match e with Started _ => true | _ => false end.

Definition isCompleted (e : RunnerEvent) : bool :=
  match e with Completed _ _ => true | _ => false end.

Definition startedCount (log : list RunnerEvent) : nat :=
  length (List.filter isStarted log).

Definition completedCount (log : list RunnerEvent) : nat :=
  length (List.filter isCompleted log).

(** *** Notions used in the statements *)

(** The runner's history accounts for every live handle: started minus
    completed is the number of live processes. *)
Definition accounted (m : ExecutorManager) : Prop :=
  startedCount (runnerLog m) =
  completedCount (runnerLog m) + length (liveProcesses m).

(** [getAnalyzeCmdLine] assembled from a database path that was found. *)
Definition analyzeCmdLineWith (w : World) (workspaceFolder : string)
    (ccCompileCmd : string) (files : list Uri) : string :=
  join " "
    [ executablePath w +:+ " analyze";
      quoted ccCompileCmd;
      "--output " +:+ quoted (outputFolder w workspaceFolder);
      (if truthy (getConfiguration w "codechecker.executor" "threadCount")
       then "-j " +:+
            from_option (js_to_string Number_toString) EmptyString
              (getConfiguration w "codechecker.executor" "threadCount")
       else EmptyString);
      default EmptyString
        (getConfigAndReplaceVariables w "codechecker.executor" "arguments");
      match files with
      | [] => EmptyString
      | _ :: _ =>
          "--file " +:+ join " " (map (fun uri => quoted (fsPath uri)) files)
      end ].

(** The result of [getAnalyzeCmdLine]. *)
Definition analyzeCmdLine (w : World) (paths : list (option string))
    (files : list Uri) : option string :=
  match workspaceFolders w with
  | [] => None
  | workspaceFolder :: _ =>
      match firstExisting w paths with
      | Some ccCompileCmd =>
          Some (analyzeCmdLineWith w workspaceFolder ccCompileCmd files)
      | None => None
      end
  end.

Definition noDatabaseWarning : string :=
  "No compilation database found, CodeChecker not started - see logs for details".

(** The state [getAnalyzeCmdLine] leaves behind. *)
Definition afterAnalyzeCmdLine (w : World) (s : State) : State :=
  let s1 := addBridgeMessages (compileCommandsMessages w (databasePaths s)) s in
  match workspaceFolders w, firstExisting w (databasePaths s) with
  | _ :: _, None => (showWarningMessage noDatabaseWarning s1).2
  | _, _ => s1
  end.

Definition cancelRequests (tag : ProcessType) (m : ExecutorManager)
    : list RunnerEvent :=
  match activeProcess m with
  | Some a => if decide (Manager.tagOf a = tag) then [CancelRequested a] else []
  | None => []
  end.

Definition preserves {A : Type} (I : State -> Prop) (c : M A) : Prop :=
  forall s, I s -> I (c s).2.

Definition newListener (watch : nat) (k : FsEventKind) : Listener :=
  {| onWatcher := watch; eventKind := k; listenerDisposed := false |}.

Definition newWatcher (pattern : string) : FileSystemWatcher :=
  {| globPattern := pattern; watcherDisposed := false |}.

Definition listenersFor (watches : list nat) : list Listener :=
  watches ≫= (fun watch => [newListener watch DidCreate;
                            newListener watch DidDelete]).

(** The body of the last loop of [updateDatabasePaths]. *)
Definition pushBoth (watch : nat) : M unit :=
  pushDatabaseEvent watch DidCreate;; pushDatabaseEvent watch DidDelete.

(** What subscribing to a watcher leaves alone. *)
Definition besidesListeners (s : State) :=
  (databaseWatches s, databasePaths s, bridgeMessages s,
   databaseLocationChanged s, warningMessages s, watchers s,
   executorManager s).

(** What an analysis request, a stop or a completion leaves alone. *)
Definition watching (s : State) :=
  (databaseWatches s, databaseEvents s, databasePaths s, watchers s,
   listeners s, databaseLocationChanged s).

(** The paths [updateDatabasePaths] computes. *)
Definition databasePathsOf (w : World) (workspaceFolder : string)
    : list (option string) :=
  [ getConfigAndReplaceVariables w "codechecker.backend" "databasePath";
    Some (path_join (outputFolder w workspaceFolder) "compile_commands.json");
    Some (path_join (outputFolder w workspaceFolder) "compile_cmd.json") ].

(** Every watched path has a live watcher with both subscriptions. *)
Definition armed (s : State) : Prop :=
  forall pattern, Some pattern ∈ databasePaths s ->
  exists watch,
    watch ∈ databaseWatches s /\
    watchers s !! watch = Some (newWatcher pattern) /\
    forall k, newListener watch k ∈ listeners s.

(** The manager is consistent and the message channel holds only
    well-formed lines. *)
Definition sound (s : State) : Prop :=
  consistent (executorManager s) /\ Forall bridgeLine (bridgeMessages s).

Definition addLocationChanged (n : nat) (s : State) : State :=
  {| databaseWatches := databaseWatches s;
     databaseEvents := databaseEvents s;
     databasePaths := databasePaths s;
     bridgeMessages := bridgeMessages s;
     databaseLocationChanged := n + databaseLocationChanged s;
     warningMessages := warningMessages s;
     watchers := watchers s;
     listeners := listeners s;
     executorManager := executorManager s |}.

(** The settings reader looks at the folders and at the one setting it is
    asked for. *)
Definition readsOnlyItsSetting : Prop :=
  forall (w1 w2 : World) (category name : string),
    workspaceFolders w1 = workspaceFolders w2 ->
    getConfiguration w1 category name = getConfiguration w2 category name ->
    getConfigAndReplaceVariables w1 category name =
    getConfigAndReplaceVariables w2 category name.

(** The settings the bridge asks for, by full name. *)
Definition settingsRead : list string :=
  [ settingName "codechecker.executor" "executablePath";
    settingName "codechecker.backend" "outputFolder";
    settingName "codechecker.executor" "arguments";
    settingName "codechecker.executor" "threadCount";
    settingName "codechecker.executor" "runOnSave";
    settingName "codechecker.backend" "databasePath" ].

(** Two snapshots in which the bridge reads the same things. *)
Definition sameReadings (w1 w2 : World) : Prop :=
  workspaceFolders w1 = workspaceFolders w2 /\
  existsSync w1 = existsSync w2 /\
  activeTextEditor w1 = activeTextEditor w2 /\
  showOpenDialog w1 = showOpenDialog w2 /\
  (forall category name, settingName category name ∈ settingsRead ->
     getConfigAndReplaceVariables w1 category name =
     getConfigAndReplaceVariables w2 category name) /\
  (forall category name, settingName category name ∈ settingsRead ->
     getConfiguration w1 category name = getConfiguration w2 category name).

(** *** Notions used for the database lookup and the watchers *)

(** A path [getCompileCommandsPath] accepts: the string is not empty and
    [fs.existsSync] finds it. *)
Definition usable (w : World) (p : string) : bool :=
  negb (String.eqb p EmptyString) && existsSync w p.

Definition isDisposed (l : Listener) : Prop := listenerDisposed l = true.

(** The watchers and subscriptions are in the shape [updateDatabasePaths]
    leaves them in: the newest watchers are those of the database paths
    that are set, each with its two subscriptions, every older
    subscription has been disposed of, and [databaseEvents] refers to all
    subscriptions ever made. *)
Definition tidy (s : State) : Prop :=
  databaseEvents s = seq 0 (length (listeners s)) /\
  exists (oldWatchers : list FileSystemWatcher) (oldListeners : list Listener),
    watchers s =
      (oldWatchers ++ map newWatcher (omap id (databasePaths s)))%list /\
    databaseWatches s =
      seq (length oldWatchers) (length (omap id (databasePaths s))) /\
    listeners s = (oldListeners ++ listenersFor (databaseWatches s))%list /\
    Forall isDisposed oldListeners.

(** ** Properties of the executor manager *)

Lemma drain_loop_busy (fuel : nat) (m : ExecutorManager) (a : ScheduledProcess) :
  activeProcess m = Some a -> Manager.drain_loop fuel m = m.
Proof.
  intros Hact. destruct fuel as [|fuel]; simpl; [reflexivity|].
  unfold Manager.takeNext. rewrite Hact. reflexivity.
Qed.

(** The drain loop runs its body at most once: after a start the active
    slot is taken and [takeNext] yields nothing. *)
Lemma drain_unfold (m : ExecutorManager) :
  Manager.drain m =
  match Manager.takeNext m with
  | Some (p, m') => Manager.start p (Manager.markActive p m')
  | None => m
  end.
Proof.
  unfold Manager.drain. simpl.
  destruct (Manager.takeNext m) as [[p m']|]; [|reflexivity].
  apply drain_loop_busy with (a := p). reflexivity.
Qed.

Lemma drain_busy (m : ExecutorManager) (a : ScheduledProcess) :
  activeProcess m = Some a -> Manager.drain m = m.
Proof. intros Hact. apply drain_loop_busy with (a := a). exact Hact. Qed.

Lemma drain_idle_empty (m : ExecutorManager) :
  activeProcess m = None -> queue m = [] -> Manager.drain m = m.
Proof.
  intros Hact Hq. rewrite drain_unfold. unfold Manager.takeNext.
  rewrite Hact, Hq. reflexivity.
Qed.

Lemma drain_idle_cons (m : ExecutorManager) (p : ScheduledProcess)
    (rest : list ScheduledProcess) :
  activeProcess m = None -> queue m = p :: rest ->
  Manager.drain m =
  {| queue := rest; activeProcess := Some p;
     liveProcesses := liveProcesses m ++ [p];
     runnerLog := runnerLog m ++ [Started p] |}.
Proof.
  intros Hact Hq. rewrite drain_unfold. unfold Manager.takeNext.
  rewrite Hact, Hq. reflexivity.
Qed.

(** After a drain nothing more can be taken. *)
Lemma drain_quiescent (m : ExecutorManager) :
  Manager.takeNext (Manager.drain m) = None.
Proof.
  destruct (activeProcess m) as [a|] eqn:Hact.
  - rewrite (drain_busy m a Hact). unfold Manager.takeNext.
    rewrite Hact. reflexivity.
  - destruct (queue m) as [|p rest] eqn:Hq.
    + rewrite (drain_idle_empty m Hact Hq). unfold Manager.takeNext.
      rewrite Hact, Hq. reflexivity.
    + rewrite (drain_idle_cons m p rest Hact Hq). reflexivity.
Qed.

Lemma drain_consistent (m : ExecutorManager) :
  consistent m -> consistent (Manager.drain m).
Proof.
  unfold consistent. intros Hm.
  destruct (activeProcess m) as [a|] eqn:Hact.
  - rewrite (drain_busy m a Hact). rewrite Hm, Hact. reflexivity.
  - destruct (queue m) as [|p rest] eqn:Hq.
    + rewrite (drain_idle_empty m Hact Hq). rewrite Hm, Hact. reflexivity.
    + rewrite (drain_idle_cons m p rest Hact Hq). simpl.
      rewrite Hm. reflexivity.
Qed.

Lemma addToQueue_consistent (p : ScheduledProcess) (policy : Policy)
    (m : ExecutorManager) :
  consistent m -> consistent (Manager.addToQueue p policy m).
Proof. intros Hm. apply drain_consistent. exact Hm. Qed.

Lemma clearQueue_consistent (tag : ProcessType) (m : ExecutorManager) :
  consistent m -> consistent (Manager.clearQueue tag m).
Proof. intros Hm. exact Hm. Qed.

Lemma killProcess_consistent (m : ExecutorManager) :
  consistent m -> consistent (Manager.killProcess m).
Proof.
  unfold consistent, Manager.killProcess. intros Hm.
  destruct (activeProcess m) as [a|] eqn:Hact; simpl.
  - exact Hm.
  - rewrite Hact. exact Hm.
Qed.

Lemma stop_consistent (tag : ProcessType) (m : ExecutorManager) :
  consistent m -> consistent (Manager.stop tag m).
Proof.
  intros Hm. unfold Manager.stop.
  pose proof (clearQueue_consistent tag m Hm) as Hc.
  destruct (activeProcess (Manager.clearQueue tag m)) as [a|]; [|exact Hc].
  destruct (decide (Manager.tagOf a = tag)); [|exact Hc].
  apply killProcess_consistent. exact Hc.
Qed.

Lemma complete_consistent (i : nat) (o : Outcome) (m : ExecutorManager) :
  consistent m -> consistent (Manager.complete i o m).
Proof.
  intros Hm. unfold Manager.complete.
  destruct (liveProcesses m !! i) as [p|] eqn:Hi; [|exact Hm].
  apply drain_consistent. unfold consistent in *. simpl.
  rewrite Hm in Hi |- *.
  destruct (activeProcess m) as [a|]; simpl in *.
  - destruct i as [|i]; [reflexivity|]. discriminate Hi.
  - discriminate Hi.
Qed.

Lemma step_consistent (m : ExecutorManager) (e : Manager.Event) :
  consistent m -> consistent (Manager.step m e).
Proof.
  intros Hm. destruct e; simpl.
  - apply addToQueue_consistent, Hm.
  - apply clearQueue_consistent, Hm.
  - apply killProcess_consistent, Hm.
  - apply stop_consistent, Hm.
  - apply complete_consistent, Hm.
Qed.

Lemma consistent_at_most_one (m : ExecutorManager) :
  consistent m -> length (liveProcesses m) <= 1.
Proof.
  unfold consistent. intros ->. destruct (activeProcess m); simpl; lia.
Qed.

Lemma states_consistent (es : list Manager.Event) (m : ExecutorManager) :
  consistent m -> Forall consistent (Manager.states es m).
Proof.
  revert m. induction es as [|e es IH]; intros m Hm; simpl.
  - constructor; [exact Hm|constructor].
  - constructor; [exact Hm|]. apply IH, step_consistent, Hm.
Qed.

Lemma startedCount_app (l1 l2 : list RunnerEvent) :
  startedCount (l1 ++ l2) = startedCount l1 + startedCount l2.
Proof. unfold startedCount. rewrite List.filter_app, length_app. reflexivity. Qed.

Lemma completedCount_app (l1 l2 : list RunnerEvent) :
  completedCount (l1 ++ l2) = completedCount l1 + completedCount l2.
Proof.
  unfold completedCount. rewrite List.filter_app, length_app. reflexivity.
Qed.

Lemma drain_accounted (m : ExecutorManager) :
  accounted m -> accounted (Manager.drain m).
Proof.
  unfold accounted. intros Hm. rewrite drain_unfold.
  unfold Manager.takeNext.
  destruct (activeProcess m); [exact Hm|].
  destruct (queue m) as [|p rest]; [exact Hm|]. simpl.
  rewrite startedCount_app, completedCount_app, length_app. simpl.
  unfold startedCount at 2, completedCount at 2. simpl. lia.
Qed.

Lemma step_accounted (m : ExecutorManager) (e : Manager.Event) :
  accounted m -> accounted (Manager.step m e).
Proof.
  intros Hm. destruct e as [p policy|tag| |tag|i o]; simpl.
  - apply drain_accounted. exact Hm.
  - exact Hm.
  - unfold Manager.killProcess. destruct (activeProcess m); [|exact Hm].
    unfold accounted in *. simpl.
    rewrite startedCount_app, completedCount_app.
    unfold startedCount at 2, completedCount at 2. simpl. lia.
  - unfold Manager.stop.
    destruct (activeProcess (Manager.clearQueue tag m)) as [a|] eqn:Hact;
      [|exact Hm].
    destruct (decide (Manager.tagOf a = tag)); [|exact Hm].
    unfold Manager.killProcess. rewrite Hact.
    unfold accounted in *. simpl.
    rewrite startedCount_app, completedCount_app.
    unfold startedCount at 2, completedCount at 2. simpl. lia.
  - unfold Manager.complete.
    destruct (liveProcesses m !! i) as [p|] eqn:Hi; [|exact Hm].
    apply drain_accounted. unfold accounted in *. simpl.
    rewrite startedCount_app, completedCount_app.
    unfold startedCount at 2, completedCount at 2. simpl.
    pose proof (lookup_lt_Some _ _ _ Hi) as Hlt.
    rewrite length_delete by (rewrite Hi; eauto). lia.
Qed.

Lemma states_accounted (es : list Manager.Event) (m : ExecutorManager) :
  accounted m -> Forall accounted (Manager.states es m).
Proof.
  revert m. induction es as [|e es IH]; intros m Hm; simpl.
  - constructor; [exact Hm|constructor].
  - constructor; [exact Hm|]. apply IH, step_accounted, Hm.
Qed.

(** ** Running the bridge's methods *)

Lemma bind_run {A B : Type} (c : M A) (k : A -> M B) (s : State) :
  (c ≫= k) s = k (c s).1 (c s).2.
Proof. unfold mbind, M_bind. destruct (c s). reflexivity. Qed.

Lemma addBridgeMessages_nil (s : State) : addBridgeMessages [] s = s.
Proof. destruct s. unfold addBridgeMessages. simpl. rewrite app_nil_r. reflexivity. Qed.

Lemma addBridgeMessages_app (l1 l2 : list string) (s : State) :
  addBridgeMessages l2 (addBridgeMessages l1 s) = addBridgeMessages (l1 ++ l2) s.
Proof. unfold addBridgeMessages. simpl. rewrite app_assoc. reflexivity. Qed.

Lemma fireBridgeMessage_run (msg : string) (s : State) :
  fireBridgeMessage msg s = (tt, addBridgeMessages [msg] s).
Proof. reflexivity. Qed.

Lemma forEach_fire {A : Type} (f : A -> string) (l : list A) (s : State) :
  forEach l (fun x => fireBridgeMessage (f x)) s =
  (tt, addBridgeMessages (map f l) s).
Proof.
  revert s. induction l as [|x l IH]; intros s; simpl.
  - rewrite addBridgeMessages_nil. reflexivity.
  - rewrite bind_run, fireBridgeMessage_run. cbn [fst snd]. rewrite IH.
    rewrite addBridgeMessages_app. reflexivity.
Qed.

Lemma forEach_ext {A : Type} (body1 body2 : A -> M unit) (l : list A) :
  (forall x, body1 x = body2 x) -> forEach l body1 = forEach l body2.
Proof.
  intros Hext. induction l as [|x l IH]; simpl; [reflexivity|].
  rewrite Hext, IH. reflexivity.
Qed.

Lemma getCompileCommandsPath_run (w : World) (s : State) :
  getCompileCommandsPath w s =
  (compileCommandsPath w (databasePaths s),
   addBridgeMessages (compileCommandsMessages w (databasePaths s)) s).
Proof.
  unfold getCompileCommandsPath, compileCommandsPath, compileCommandsMessages.
  destruct (workspaceFolders w) as [|folder folders].
  - rewrite addBridgeMessages_nil. reflexivity.
  - rewrite bind_run. unfold getDatabasePaths. cbn [fst snd].
    destruct (firstExisting w (databasePaths s)) as [filePath|].
    + rewrite bind_run. reflexivity.
    + rewrite bind_run, fireBridgeMessage_run. cbn [fst snd].
      rewrite bind_run.
      rewrite (forEach_ext _ (fun x => fireBridgeMessage (triedPathLine x))).
      * rewrite forEach_fire. cbn [fst snd].
        rewrite addBridgeMessages_app. reflexivity.
      * intros [p|]; unfold triedPathLine; simpl; [|reflexivity].
        destruct (String.eqb p EmptyString); reflexivity.
Qed.

Lemma getAnalyzeCmdLine_run (w : World) (files : list Uri) (s : State) :
  getAnalyzeCmdLine w files s =
  (analyzeCmdLine w (databasePaths s) files, afterAnalyzeCmdLine w s).
Proof.
  unfold getAnalyzeCmdLine, analyzeCmdLine, afterAnalyzeCmdLine.
  destruct (workspaceFolders w) as [|folder folders] eqn:Hw.
  - unfold compileCommandsMessages. rewrite Hw.
    rewrite addBridgeMessages_nil. reflexivity.
  - rewrite bind_run, getCompileCommandsPath_run. simpl.
    unfold compileCommandsPath. rewrite Hw.
    destruct (firstExisting w (databasePaths s)) as [cc|].
    + reflexivity.
    + rewrite bind_run. reflexivity.
Qed.

Lemma afterAnalyzeCmdLine_manager (w : World) (s : State) :
  executorManager (afterAnalyzeCmdLine w s) = executorManager s.
Proof.
  unfold afterAnalyzeCmdLine.
  destruct (workspaceFolders w); [reflexivity|].
  destruct (firstExisting w (databasePaths s)); reflexivity.
Qed.

Lemma afterAnalyzeCmdLine_paths (w : World) (s : State) :
  databasePaths (afterAnalyzeCmdLine w s) = databasePaths s.
Proof.
  unfold afterAnalyzeCmdLine.
  destruct (workspaceFolders w); [reflexivity|].
  destruct (firstExisting w (databasePaths s)); reflexivity.
Qed.

Lemma analyzeFile_run (w : World) (file : Uri) (s : State) :
  analyzeFile w file s =
  (tt,
   match analyzeCmdLine w (databasePaths s) [file] with
   | Some cmdLine =>
       (onManager (Manager.addToQueue (analyzeProcess cmdLine) prepend)
                  (afterAnalyzeCmdLine w s)).2
   | None => afterAnalyzeCmdLine w s
   end).
Proof.
  unfold analyzeFile. rewrite bind_run, getAnalyzeCmdLine_run. simpl.
  destruct (analyzeCmdLine w (databasePaths s) [file]); reflexivity.
Qed.

(** ** The message channel *)

Lemma ends_with_newline_append (a : string) :
  ends_with_newline (a +:+ newline) = true.
Proof.
  unfold ends_with_newline.
  assert (Hlast : last_char (a +:+ newline) = Some (ascii_of_nat 10)).
  { induction a as [|c a IH]; [reflexivity|].
    change (String c a +:+ newline) with (String c (a +:+ newline)).
    simpl last_char. rewrite IH.
    destruct (a +:+ newline) eqn:Ha; [|reflexivity].
    destruct a; discriminate Ha. }
  rewrite Hlast. reflexivity.
Qed.

Lemma append_assoc (a b c : string) : (a +:+ b) +:+ c = a +:+ b +:+ c.
Proof.
  induction a as [|x a IH]; [reflexivity|].
  change (String x ((a +:+ b) +:+ c) = String x (a +:+ b +:+ c)).
  rewrite IH. reflexivity.
Qed.

Lemma bridgeLine_found (filePath : string) :
  bridgeLine (">>> Database found at path: " +:+ filePath +:+ newline).
Proof.
  split; [reflexivity|].
  rewrite <- append_assoc. apply ends_with_newline_append.
Qed.

Lemma bridgeLine_header :
  bridgeLine (">>> No database found in the following paths:" +:+ newline).
Proof. split; reflexivity. Qed.

Lemma bridgeLine_tried (filePath : option string) :
  bridgeLine (triedPathLine filePath).
Proof.
  unfold triedPathLine. destruct (truthy_path filePath).
  - split; [reflexivity|].
    rewrite <- append_assoc. apply ends_with_newline_append.
  - split; reflexivity.
Qed.

Lemma compileCommandsMessages_lines (w : World)
    (paths : list (option string)) :
  Forall bridgeLine (compileCommandsMessages w paths).
Proof.
  unfold compileCommandsMessages.
  destruct (workspaceFolders w); [constructor|].
  destruct (firstExisting w paths) as [filePath|].
  - constructor; [apply bridgeLine_found|constructor].
  - constructor; [apply bridgeLine_header|].
    apply Forall_forall. intros msg Hin.
    apply list_elem_of_fmap in Hin as [filePath [-> _]].
    apply bridgeLine_tried.
Qed.

(** ** Stopping the analysis *)

Lemma stop_fields (tag : ProcessType) (m : ExecutorManager) :
  queue (Manager.stop tag m) =
    filter (fun p => Manager.tagOf p <> tag) (queue m) /\
  activeProcess (Manager.stop tag m) = activeProcess m /\
  liveProcesses (Manager.stop tag m) = liveProcesses m /\
  runnerLog (Manager.stop tag m) = (runnerLog m ++ cancelRequests tag m)%list.
Proof.
  unfold Manager.stop, cancelRequests, Manager.killProcess.
  cbn [activeProcess Manager.clearQueue].
  destruct (activeProcess m) as [a|] eqn:Hact.
  - destruct (decide (Manager.tagOf a = tag)); cbn.
    + auto.
    + rewrite Hact, app_nil_r. auto.
  - cbn. rewrite Hact, app_nil_r. auto.
Qed.

Lemma stopAnalysis_run (s : State) :
  stopAnalysis s = (tt, (onManager (Manager.stop analyze) s).2).
Proof.
  unfold stopAnalysis. rewrite bind_run. unfold onManager.
  cbn [fst snd]. rewrite bind_run. unfold getActiveProcess.
  cbn [fst snd executorManager]. unfold Manager.stop.
  cbn [activeProcess Manager.clearQueue].
  destruct (activeProcess (executorManager s)) as [a|]; [|reflexivity].
  unfold Manager.tagOf.
  destruct (decide (processType (processParameters a) = analyze));
    reflexivity.
Qed.

(** C3: [stopAnalysis] removes every pending unit tagged [analyze] and
    keeps the others in order; it asks the runner to cancel the active
    process exactly when there is one and its tag is [analyze]; an active
    process of another tag, or none, gets no request; the active slot and
    the live process are left as they are. *)
Theorem stopAnalysis_clears_and_cancels (s : State) :
  let m := executorManager s in
  let m' := executorManager (stopAnalysis s).2 in
  queue m' = filter (fun p => Manager.tagOf p <> analyze) (queue m) /\
  (forall p, p ∈ queue m' -> Manager.tagOf p <> analyze) /\
  (forall a, activeProcess m = Some a -> Manager.tagOf a = analyze ->
             runnerLog m' = (runnerLog m ++ [CancelRequested a])%list) /\
  ((forall a, activeProcess m = Some a -> Manager.tagOf a <> analyze) ->
   runnerLog m' = runnerLog m) /\
  activeProcess m' = activeProcess m /\
  liveProcesses m' = liveProcesses m.
Proof.
  intros m m'. subst m'. rewrite stopAnalysis_run. cbn [snd onManager executorManager].
  fold m.
  destruct (stop_fields analyze m) as (Hq & Ha & Hl & Hlog).
  split; [exact Hq|]. split.
  { intros p Hp. rewrite Hq in Hp. apply list_elem_of_filter in Hp as [Hp _].
    exact Hp. }
  split.
  { intros a Hact Htag. rewrite Hlog. unfold cancelRequests. rewrite Hact.
    destruct (decide (Manager.tagOf a = analyze)); [reflexivity|contradiction]. }
  split.
  { intros Hother. rewrite Hlog. unfold cancelRequests.
    destruct (activeProcess m) as [a|]; [|apply app_nil_r].
    destruct (decide (Manager.tagOf a = analyze)) as [Htag|]; [|apply app_nil_r].
    exfalso. exact (Hother a eq_refl Htag). }
  split; assumption.
Qed.

(** ** Submitting analyses *)

Lemma addToQueue_busy (p : ScheduledProcess) (policy : Policy)
    (m : ExecutorManager) (a : ScheduledProcess) :
  activeProcess m = Some a ->
  Manager.addToQueue p policy m = Manager.enqueue p policy m.
Proof. intros Hact. unfold Manager.addToQueue. apply drain_busy with (a := a). exact Hact. Qed.

Lemma addToQueue_prepend_idle (p : ScheduledProcess) (m : ExecutorManager) :
  activeProcess m = None ->
  Manager.addToQueue p prepend m =
  {| queue := queue m; activeProcess := Some p;
     liveProcesses := liveProcesses m ++ [p];
     runnerLog := runnerLog m ++ [Started p] |}.
Proof.
  intros Hact. unfold Manager.addToQueue.
  rewrite (drain_idle_cons _ p (queue m)); [reflexivity|exact Hact|reflexivity].
Qed.

Lemma addToQueue_replace_idle (p : ScheduledProcess) (m : ExecutorManager) :
  activeProcess m = None ->
  Manager.addToQueue p replace m =
  {| queue := []; activeProcess := Some p;
     liveProcesses := liveProcesses m ++ [p];
     runnerLog := runnerLog m ++ [Started p] |}.
Proof.
  intros Hact. unfold Manager.addToQueue.
  rewrite (drain_idle_cons _ p []); [reflexivity|exact Hact|reflexivity].
Qed.

(** The completion signal of the one live process frees the slot and
    starts the head of the queue. *)
Lemma complete_active (o : Outcome) (m : ExecutorManager)
    (a next : ScheduledProcess) (rest : list ScheduledProcess) :
  consistent m -> activeProcess m = Some a -> queue m = next :: rest ->
  Manager.complete 0 o m =
  {| queue := rest; activeProcess := Some next;
     liveProcesses := [next];
     runnerLog := runnerLog m ++ [Completed a o; Started next] |}.
Proof.
  intros Hcons Hact Hq. unfold Manager.complete.
  unfold consistent in Hcons. rewrite Hcons, Hact.
  change (option_list (Some a) !! 0) with (Some a). cbv beta iota.
  rewrite (drain_idle_cons _ next rest) by (cbn; auto).
  cbn. rewrite <- app_assoc. reflexivity.
Qed.

Lemma analyzeProject_run (w : World) (s : State) :
  analyzeProject w s =
  (tt,
   let s1 := (stopAnalysis s).2 in
   match analyzeCmdLine w (databasePaths s1) [] with
   | Some cmdLine =>
       (onManager (Manager.addToQueue (analyzeProcess cmdLine) replace)
                  (afterAnalyzeCmdLine w s1)).2
   | None => afterAnalyzeCmdLine w s1
   end).
Proof.
  unfold analyzeProject. rewrite bind_run, bind_run, getAnalyzeCmdLine_run.
  cbn [fst snd].
  destruct (analyzeCmdLine w (databasePaths (stopAnalysis s).2) []);
    reflexivity.
Qed.

(** C2, as amended: a whole-project request first runs the stop operation
    (the pending [analyze] units are gone and an active [analyze] process
    has been asked to stop).  Then, if a command line can be formed, it
    submits one unit, tagged [analyze] and carrying the command line for
    the whole project, with the [replace] policy; if none can be formed,
    nothing is submitted and the manager stays as the stop left it.  The
    [replace] enqueue leaves the active slot, the live process and the
    runner alone, so a process still active keeps running with the new
    unit as the only pending one; with nothing active the unit is started
    at once and nothing stays pending. *)
Theorem analyzeProject_stops_then_replaces (w : World) (s : State) :
  let m := executorManager s in
  let stopped := executorManager (stopAnalysis s).2 in
  let m' := executorManager (analyzeProject w s).2 in
  let formed := (getAnalyzeCmdLine w [] (stopAnalysis s).2).1 in
  stopped = Manager.stop analyze m /\
  (forall p, p ∈ queue stopped -> Manager.tagOf p <> analyze) /\
  runnerLog stopped = (runnerLog m ++ cancelRequests analyze m)%list /\
  formed = (getAnalyzeCmdLine w [] s).1 /\
  (formed = None -> m' = stopped) /\
  (forall cmdLine, formed = Some cmdLine ->
     let unit := analyzeProcess cmdLine in
     Manager.tagOf unit = analyze /\
     commandLine unit = cmdLine /\
     m' = Manager.addToQueue unit replace stopped /\
     (forall a, activeProcess m = Some a ->
        queue m' = [unit] /\
        activeProcess m' = Some a /\
        liveProcesses m' = liveProcesses m /\
        runnerLog m' = runnerLog stopped) /\
     (activeProcess m = None ->
        queue m' = [] /\
        activeProcess m' = Some unit /\
        runnerLog m' = (runnerLog stopped ++ [Started unit])%list)) /\
  (forall p m0,
     queue (Manager.enqueue p replace m0) = [p] /\
     activeProcess (Manager.enqueue p replace m0) = activeProcess m0 /\
     liveProcesses (Manager.enqueue p replace m0) = liveProcesses m0 /\
     runnerLog (Manager.enqueue p replace m0) = runnerLog m0).
Proof.
  intros m stopped m' formed.
  assert (Hstopped : stopped = Manager.stop analyze m).
  { subst stopped. rewrite stopAnalysis_run. reflexivity. }
  destruct (stop_fields analyze m) as (Hq & Ha & Hl & Hlog).
  assert (Hm' : m' = match formed with
                     | Some cmdLine =>
                         Manager.addToQueue (analyzeProcess cmdLine) replace stopped
                     | None => stopped
                     end).
  { subst m' formed. rewrite analyzeProject_run, getAnalyzeCmdLine_run.
    cbn [fst snd].
    destruct (analyzeCmdLine w (databasePaths (stopAnalysis s).2) []).
    - cbn [snd onManager executorManager].
      rewrite afterAnalyzeCmdLine_manager. reflexivity.
    - rewrite afterAnalyzeCmdLine_manager. reflexivity. }
  split; [exact Hstopped|]. split.
  { intros p Hp. rewrite Hstopped, Hq in Hp.
    apply list_elem_of_filter in Hp as [Hp _]. exact Hp. }
  split; [rewrite Hstopped; exact Hlog|].
  split.
  { subst formed. rewrite !getAnalyzeCmdLine_run. cbn [fst].
    rewrite stopAnalysis_run. reflexivity. }
  split; [intros Hnone; rewrite Hm', Hnone; reflexivity|].
  split; [|intros p m0; auto].
  intros cmdLine Hcmd unit.
  split; [reflexivity|]. split; [reflexivity|].
  split; [rewrite Hm', Hcmd; reflexivity|]. split.
  - intros a Hact. rewrite Hm', Hcmd.
    rewrite (addToQueue_busy _ _ _ a) by (rewrite Hstopped, Ha; exact Hact).
    cbn. rewrite Hstopped, Ha, Hl. auto.
  - intros Hact. rewrite Hm', Hcmd.
    rewrite addToQueue_replace_idle by (rewrite Hstopped, Ha; exact Hact).
    cbn. auto.
Qed.

Lemma analyzeFile_manager (w : World) (file : Uri) (s : State) :
  executorManager (analyzeFile w file s).2 =
  match (getAnalyzeCmdLine w [file] s).1 with
  | Some cmdLine =>
      Manager.addToQueue (analyzeProcess cmdLine) prepend (executorManager s)
  | None => executorManager s
  end.
Proof.
  rewrite analyzeFile_run, getAnalyzeCmdLine_run. cbn [fst snd].
  destruct (analyzeCmdLine w (databasePaths s) [file]);
    cbn [snd onManager executorManager];
    rewrite afterAnalyzeCmdLine_manager; reflexivity.
Qed.

Lemma analyzeFile_paths (w : World) (file : Uri) (s : State) :
  databasePaths (analyzeFile w file s).2 = databasePaths s.
Proof.
  rewrite analyzeFile_run. cbn [snd].
  destruct (analyzeCmdLine w (databasePaths s) [file]);
    cbn [snd onManager databasePaths];
    apply afterAnalyzeCmdLine_paths.
Qed.

(** The command line of a request depends on the snapshot and the
    database paths, not on what the bridge did before. *)
Lemma getAnalyzeCmdLine_result (w : World) (files : list Uri) (s1 s2 : State) :
  databasePaths s1 = databasePaths s2 ->
  (getAnalyzeCmdLine w files s1).1 = (getAnalyzeCmdLine w files s2).1.
Proof. intros Hp. rewrite !getAnalyzeCmdLine_run. cbn [fst]. rewrite Hp. reflexivity. Qed.

Lemma forEach_map {A B : Type} (f : A -> B) (body : B -> M unit)
    (l : list A) :
  forEach l (fun x => body (f x)) = forEach (map f l) body.
Proof.
  induction l as [|x l IH]; [reflexivity|]. cbn [forEach map].
  rewrite IH. reflexivity.
Qed.

(** Several files analysed one after the other: each is put in front of
    the queue in turn. *)
Lemma forEach_analyzeFile_manager (w : World) (files : list Uri) (s : State) :
  executorManager (forEach files (analyzeFile w) s).2 =
  foldl (fun m file =>
           match (getAnalyzeCmdLine w [file] s).1 with
           | Some cmdLine =>
               Manager.addToQueue (analyzeProcess cmdLine) prepend m
           | None => m
           end)
        (executorManager s) files.
Proof.
  assert (Hgen : forall s0, databasePaths s0 = databasePaths s ->
    executorManager (forEach files (analyzeFile w) s0).2 =
    foldl (fun m file =>
             match (getAnalyzeCmdLine w [file] s).1 with
             | Some cmdLine =>
                 Manager.addToQueue (analyzeProcess cmdLine) prepend m
             | None => m
             end)
          (executorManager s0) files).
  { induction files as [|file files IH]; intros s0 Hp; [reflexivity|].
    cbn [forEach foldl]. rewrite bind_run.
    rewrite IH by (rewrite analyzeFile_paths; exact Hp).
    rewrite analyzeFile_manager.
    rewrite (getAnalyzeCmdLine_result w [file] s0 s Hp). reflexivity. }
  apply Hgen. reflexivity.
Qed.

(** C5: a single-file request that yields a command line is submitted as
    an [analyze] unit with the [prepend] policy.  While a process is
    active the unit goes to the head of the queue, the active process is
    neither replaced nor asked to stop, and the unit is the one started
    when that process completes; with nothing active it is started at
    once, ahead of what was queued.  The request may come from "analyze
    current file", from a save, or from "analyze selected files", where
    the files are either the paths passed, each turned into a [Uri] by
    [Uri.file], or, when none is passed, the files picked in the dialog;
    each file is submitted in turn, and a cancelled dialog submits
    nothing. *)
Theorem analyzeFile_prepends (w : World) (file : Uri) (s : State)
    (cmdLine : string) :
  (getAnalyzeCmdLine w [file] s).1 = Some cmdLine ->
  let m := executorManager s in
  let unit := analyzeProcess cmdLine in
  let m' := executorManager (analyzeFile w file s).2 in
  m' = Manager.addToQueue unit prepend m /\
  Manager.tagOf unit = analyze /\
  commandLine unit = cmdLine /\
  (forall a, activeProcess m = Some a ->
     queue m' = unit :: queue m /\
     activeProcess m' = Some a /\
     liveProcesses m' = liveProcesses m /\
     runnerLog m' = runnerLog m /\
     (consistent m ->
      forall o, activeProcess (Manager.complete 0 o m') = Some unit /\
                queue (Manager.complete 0 o m') = queue m)) /\
  (activeProcess m = None ->
     queue m' = queue m /\
     activeProcess m' = Some unit /\
     runnerLog m' = (runnerLog m ++ [Started unit])%list) /\
  (activeTextEditor w = Some file ->
     executorManager (analyzeCurrentFile w s).2 = m') /\
  (forall path, Uri_file path = file ->
     executorManager (selectAndAnalyzeFile w [path] s).2 = m') /\
  (showOpenDialog w = Some [file] ->
     executorManager (selectAndAnalyzeFile w [] s).2 = m') /\
  (forall picked, showOpenDialog w = Some picked ->
     executorManager (selectAndAnalyzeFile w [] s).2 =
     foldl (fun m0 selected =>
              match (getAnalyzeCmdLine w [selected] s).1 with
              | Some selectedCmdLine =>
                  Manager.addToQueue (analyzeProcess selectedCmdLine)
                    prepend m0
              | None => m0
              end)
           m picked) /\
  (showOpenDialog w = None ->
     executorManager (selectAndAnalyzeFile w [] s).2 = m) /\
  (forall files, files <> [] ->
     executorManager (selectAndAnalyzeFile w files s).2 =
     foldl (fun m0 selected =>
              match (getAnalyzeCmdLine w [selected] s).1 with
              | Some selectedCmdLine =>
                  Manager.addToQueue (analyzeProcess selectedCmdLine)
                    prepend m0
              | None => m0
              end)
           m (map Uri_file files)) /\
  (activeTextEditor w = Some file ->
   truthy (getConfiguration w "codechecker.executor" "runOnSave") = true ->
     executorManager (analyzeOnSave w s).2 = m').
Proof.
  intros Hcmd m unit m'.
  assert (Hm' : m' = Manager.addToQueue unit prepend m).
  { subst m'. rewrite analyzeFile_manager, Hcmd. reflexivity. }
  split; [exact Hm'|]. split; [reflexivity|]. split; [reflexivity|].
  split; [|split; [|split; [|split; [|split; [|split; [|split; [|split]]]]]]].
  - intros a Hact. rewrite Hm', (addToQueue_busy _ _ _ a Hact). cbn.
    split; [reflexivity|]. split; [exact Hact|].
    split; [reflexivity|]. split; [reflexivity|]. intros Hcons o.
    rewrite (complete_active o _ a unit (queue m)); cbn; auto.
  - intros Hact. rewrite Hm', (addToQueue_prepend_idle _ _ Hact). cbn. auto.
  - intros Hed. unfold analyzeCurrentFile. rewrite Hed. reflexivity.
  - intros path Hpath. unfold selectAndAnalyzeFile. cbn [forEach].
    rewrite bind_run, Hpath. reflexivity.
  - intros Hpicked. unfold selectAndAnalyzeFile. rewrite Hpicked.
    cbn [forEach]. rewrite bind_run. reflexivity.
  - intros picked Hpicked. unfold selectAndAnalyzeFile. rewrite Hpicked.
    apply forEach_analyzeFile_manager.
  - intros Hcancelled. unfold selectAndAnalyzeFile. rewrite Hcancelled.
    reflexivity.
  - intros files Hfiles. unfold selectAndAnalyzeFile.
    destruct files as [|selected files]; [contradiction|].
    rewrite (forEach_map Uri_file (analyzeFile w)).
    apply forEach_analyzeFile_manager.
  - intros Hed Hsave. unfold analyzeOnSave. rewrite bind_run, Hsave.
    rewrite getCompileCommandsPath_run. cbn [fst snd].
    rewrite getAnalyzeCmdLine_run in Hcmd. cbn [fst] in Hcmd.
    unfold analyzeCmdLine in Hcmd. unfold compileCommandsPath.
    destruct (workspaceFolders w) as [|folder folders]; [discriminate Hcmd|].
    destruct (firstExisting w (databasePaths s)) as [cc|] eqn:Hcc;
      [|discriminate Hcmd].
    cbn. unfold analyzeCurrentFile. rewrite Hed.
    subst m'. rewrite !analyzeFile_manager.
    rewrite (getAnalyzeCmdLine_result w [file] _ s) by reflexivity.
    reflexivity.
Qed.

(** ** Requests that cannot be run *)

Lemma afterAnalyzeCmdLine_warnings (w : World) (s : State) :
  warningMessages (afterAnalyzeCmdLine w s) =
  (warningMessages s ++
   match workspaceFolders w, firstExisting w (databasePaths s) with
   | _ :: _, None => [noDatabaseWarning]
   | _, _ => []
   end)%list.
Proof.
  unfold afterAnalyzeCmdLine.
  destruct (workspaceFolders w); [cbn; rewrite app_nil_r; reflexivity|].
  destruct (firstExisting w (databasePaths s)); cbn;
    [rewrite app_nil_r|]; reflexivity.
Qed.

Lemma analyzeFile_warnings (w : World) (file : Uri) (s : State) :
  warningMessages (analyzeFile w file s).2 =
  warningMessages (afterAnalyzeCmdLine w s).
Proof.
  rewrite analyzeFile_run. cbn [snd].
  destruct (analyzeCmdLine w (databasePaths s) [file]); reflexivity.
Qed.

Lemma analyzeOnSave_run (w : World) (s : State) :
  analyzeOnSave w s =
  let s1 := (getCompileCommandsPath w s).2 in
  if truthy (getConfiguration w "codechecker.executor" "runOnSave")
  then match (getCompileCommandsPath w s).1 with
       | Some _ => analyzeCurrentFile w s1
       | None => (tt, s1)
       end
  else (tt, s1).
Proof.
  unfold analyzeOnSave. rewrite bind_run.
  destruct (truthy (getConfiguration w "codechecker.executor" "runOnSave"));
    [|reflexivity].
  destruct (getCompileCommandsPath w s).1; reflexivity.
Qed.

(** C6: the save trigger analyses the current file only when the
    [runOnSave] setting is enabled and a compilation database is found.
    If either fails, nothing is submitted and no warning is shown; if both
    hold it goes on as "analyze current file", which submits the file of
    the active editor with the [prepend] policy, again without a
    warning. *)
Theorem analyzeOnSave_gated (w : World) (s : State) :
  let canAnalyzeOnSave :=
    truthy (getConfiguration w "codechecker.executor" "runOnSave") in
  let ccPath := (getCompileCommandsPath w s).1 in
  let s' := (analyzeOnSave w s).2 in
  (canAnalyzeOnSave = false \/ ccPath = None ->
     executorManager s' = executorManager s /\
     warningMessages s' = warningMessages s) /\
  (canAnalyzeOnSave = true -> ccPath <> None ->
     s' = (analyzeCurrentFile w (getCompileCommandsPath w s).2).2 /\
     warningMessages s' = warningMessages s /\
     forall file, activeTextEditor w = Some file ->
       exists cmdLine,
         (getAnalyzeCmdLine w [file] s).1 = Some cmdLine /\
         executorManager s' =
           Manager.addToQueue (analyzeProcess cmdLine) prepend
             (executorManager s)) /\
  (executorManager s' <> executorManager s ->
     canAnalyzeOnSave = true /\ ccPath <> None).
Proof.
  intros canAnalyzeOnSave ccPath s'.
  assert (Hclosed : canAnalyzeOnSave = false \/ ccPath = None ->
            executorManager s' = executorManager s /\
            warningMessages s' = warningMessages s).
  { intros Hfails. subst s'. rewrite analyzeOnSave_run. cbv zeta.
    fold canAnalyzeOnSave. fold ccPath.
    rewrite getCompileCommandsPath_run. cbn [snd].
    destruct Hfails as [-> | ->]; [auto|].
    destruct canAnalyzeOnSave; auto. }
  split; [exact Hclosed|]. split.
  - intros Hsave Hcc. subst s'. rewrite analyzeOnSave_run. cbv zeta.
    fold canAnalyzeOnSave. fold ccPath. rewrite Hsave.
    destruct ccPath as [cc|] eqn:Hfound; [|contradiction].
    split; [reflexivity|].
    subst ccPath. rewrite getCompileCommandsPath_run in Hfound |- *.
    cbn [fst snd] in Hfound |- *.
    unfold compileCommandsPath in Hfound.
    destruct (workspaceFolders w) as [|folder folders] eqn:Hw;
      [discriminate Hfound|].
    unfold analyzeCurrentFile. destruct (activeTextEditor w) as [file|].
    + rewrite analyzeFile_warnings, afterAnalyzeCmdLine_warnings.
      cbn [databasePaths addBridgeMessages warningMessages].
      rewrite Hw, Hfound, app_nil_r. split; [reflexivity|].
      intros file' [= <-].
      exists (analyzeCmdLineWith w folder cc [file]).
      rewrite getAnalyzeCmdLine_run. cbn [fst]. unfold analyzeCmdLine.
      rewrite Hw, Hfound. split; [reflexivity|].
      rewrite analyzeFile_manager, getAnalyzeCmdLine_run. cbn [fst].
      cbn [databasePaths addBridgeMessages]. unfold analyzeCmdLine.
      rewrite Hw, Hfound. reflexivity.
    + split; [reflexivity|]. intros file' [=].
  - intros Hchanged.
    destruct canAnalyzeOnSave eqn:Hsave.
    + split; [reflexivity|]. intros Hnone. apply Hchanged.
      apply Hclosed. right. exact Hnone.
    + exfalso. apply Hchanged. apply Hclosed. left. reflexivity.
Qed.

(** C4, as amended: while a folder is open and no compilation database is
    found, [getAnalyzeCmdLine] returns [undefined] and shows exactly one
    warning, "analyze file" submits nothing, and "analyze project" only
    runs the stop operation; with no folder open [getAnalyzeCmdLine] also
    returns [undefined] and nothing is submitted, but no warning is
    shown.  Whenever no command line is returned, nothing is submitted. *)
Theorem no_command_line_no_submission (w : World) (files : list Uri)
    (file : Uri) (s : State) :
  let m := executorManager s in
  (workspaceFolders w <> [] -> (getCompileCommandsPath w s).1 = None ->
     (getAnalyzeCmdLine w files s).1 = None /\
     warningMessages (getAnalyzeCmdLine w files s).2 =
       (warningMessages s ++ [noDatabaseWarning])%list /\
     warningMessages (analyzeFile w file s).2 =
       (warningMessages s ++ [noDatabaseWarning])%list /\
     executorManager (analyzeFile w file s).2 = m /\
     warningMessages (analyzeProject w s).2 =
       (warningMessages s ++ [noDatabaseWarning])%list /\
     executorManager (analyzeProject w s).2 = Manager.stop analyze m) /\
  (workspaceFolders w = [] ->
     (getAnalyzeCmdLine w files s).1 = None /\
     warningMessages (getAnalyzeCmdLine w files s).2 = warningMessages s /\
     warningMessages (analyzeFile w file s).2 = warningMessages s /\
     executorManager (analyzeFile w file s).2 = m /\
     warningMessages (analyzeProject w s).2 = warningMessages s /\
     executorManager (analyzeProject w s).2 = Manager.stop analyze m) /\
  ((getAnalyzeCmdLine w [file] s).1 = None ->
     executorManager (analyzeFile w file s).2 = m /\
     queue (executorManager (analyzeFile w file s).2) = queue m).
Proof.
  intros m.
  assert (Hstop : databasePaths (stopAnalysis s).2 = databasePaths s /\
                  warningMessages (stopAnalysis s).2 = warningMessages s /\
                  executorManager (stopAnalysis s).2 = Manager.stop analyze m).
  { rewrite stopAnalysis_run. auto. }
  destruct Hstop as (Hsp & Hsw & Hsm).
  split; [|split].
  - intros Hfolder Hnone.
    rewrite getCompileCommandsPath_run in Hnone. cbn [fst] in Hnone.
    unfold compileCommandsPath in Hnone.
    destruct (workspaceFolders w) as [|folder folders] eqn:Hw;
      [contradiction|].
    assert (Hcmd : forall fs, analyzeCmdLine w (databasePaths s) fs = None).
    { intros fs. unfold analyzeCmdLine. rewrite Hw, Hnone. reflexivity. }
    rewrite analyzeFile_manager, analyzeFile_warnings, analyzeProject_run.
    rewrite !getAnalyzeCmdLine_run. cbv zeta. cbn [fst snd].
    rewrite Hsp, !Hcmd, !afterAnalyzeCmdLine_warnings.
    rewrite afterAnalyzeCmdLine_manager, Hsp, Hsw, Hsm, Hw, Hnone.
    repeat split; reflexivity.
  - intros Hw.
    assert (Hcmd : forall fs, analyzeCmdLine w (databasePaths s) fs = None).
    { intros fs. unfold analyzeCmdLine. rewrite Hw. reflexivity. }
    rewrite analyzeFile_manager, analyzeFile_warnings, analyzeProject_run.
    rewrite !getAnalyzeCmdLine_run. cbv zeta. cbn [fst snd].
    rewrite Hsp, !Hcmd, !afterAnalyzeCmdLine_warnings.
    rewrite afterAnalyzeCmdLine_manager, Hsw, Hsm, Hw, !app_nil_r.
    repeat split; reflexivity.
  - intros Hcmd. rewrite analyzeFile_manager, Hcmd. split; reflexivity.
Qed.

(** ** Invariants of the bridge's methods *)

Lemma preserves_mret {A : Type} (I : State -> Prop) (a : A) :
  preserves I (mret a).
Proof. intros s Hs. exact Hs. Qed.

Lemma preserves_bind {A B : Type} (I : State -> Prop) (c : M A)
    (k : A -> M B) :
  preserves I c -> (forall a, preserves I (k a)) -> preserves I (c ≫= k).
Proof.
  intros Hc Hk s Hs. rewrite bind_run. apply Hk, Hc, Hs.
Qed.

Lemma preserves_forEach {A : Type} (I : State -> Prop) (l : list A)
    (body : A -> M unit) :
  (forall x, preserves I (body x)) -> preserves I (forEach l body).
Proof.
  intros Hbody. induction l as [|x l IH]; simpl.
  - apply preserves_mret.
  - apply preserves_bind; [apply Hbody|intros _; exact IH].
Qed.

Lemma preserves_getter {A : Type} (I : State -> Prop) (get : State -> A) :
  preserves I (fun s => (get s, s)).
Proof. intros s Hs. exact Hs. Qed.

Section Requests.

(** An invariant kept by the three effects an analysis request has:
    a well-formed line on the message channel, a warning, and a call on
    the executor manager that keeps it consistent. *)
Variable I : State -> Prop.
Hypothesis fire_keeps : forall msg,
  bridgeLine msg -> preserves I (fireBridgeMessage msg).
Hypothesis warning_keeps : forall msg,
  preserves I (showWarningMessage msg).
Hypothesis manager_keeps : forall f,
  (forall m, consistent m -> consistent (f m)) -> preserves I (onManager f).

Lemma getCompileCommandsPath_preserves (w : World) :
  preserves I (getCompileCommandsPath w).
Proof.
  unfold getCompileCommandsPath.
  destruct (workspaceFolders w); [apply preserves_mret|].
  apply preserves_bind; [apply preserves_getter|]. intros paths.
  destruct (firstExisting w paths) as [filePath|].
  - apply preserves_bind; [|intros _; apply preserves_mret].
    apply fire_keeps, bridgeLine_found.
  - apply preserves_bind; [apply fire_keeps, bridgeLine_header|].
    intros _. apply preserves_bind; [|intros _; apply preserves_mret].
    apply preserves_forEach. intros filePath.
    pose proof (bridgeLine_tried filePath) as Hline.
    unfold triedPathLine in Hline.
    destruct filePath as [p|]; simpl in Hline |- *.
    + destruct (String.eqb p EmptyString); simpl in Hline;
        apply fire_keeps, Hline.
    + apply fire_keeps, Hline.
Qed.

Lemma getAnalyzeCmdLine_preserves (w : World) (files : list Uri) :
  preserves I (getAnalyzeCmdLine w files).
Proof.
  unfold getAnalyzeCmdLine.
  destruct (workspaceFolders w); [apply preserves_mret|].
  apply preserves_bind; [apply getCompileCommandsPath_preserves|].
  intros [cc|]; [apply preserves_mret|].
  apply preserves_bind; [apply warning_keeps|].
  intros _. apply preserves_mret.
Qed.

Lemma analyzeFile_preserves (w : World) (file : Uri) :
  preserves I (analyzeFile w file).
Proof.
  unfold analyzeFile.
  apply preserves_bind; [apply getAnalyzeCmdLine_preserves|].
  intros [cmdLine|]; [|apply preserves_mret].
  apply manager_keeps. intros m. apply addToQueue_consistent.
Qed.

Lemma analyzeCurrentFile_preserves (w : World) :
  preserves I (analyzeCurrentFile w).
Proof.
  unfold analyzeCurrentFile.
  destruct (activeTextEditor w);
    [apply analyzeFile_preserves|apply preserves_mret].
Qed.

Lemma analyzeOnSave_preserves (w : World) :
  preserves I (analyzeOnSave w).
Proof.
  unfold analyzeOnSave.
  apply preserves_bind; [apply getCompileCommandsPath_preserves|].
  intros ccPath.
  destruct (negb _ || negb _);
    [apply preserves_mret|apply analyzeCurrentFile_preserves].
Qed.

Lemma selectAndAnalyzeFile_preserves (w : World) (files : list string) :
  preserves I (selectAndAnalyzeFile w files).
Proof.
  unfold selectAndAnalyzeFile. destruct files as [|file files].
  - destruct (showOpenDialog w); [|apply preserves_mret].
    apply preserves_forEach. intros file. apply analyzeFile_preserves.
  - apply preserves_forEach. intros f. apply analyzeFile_preserves.
Qed.

Lemma stopAnalysis_preserves : preserves I stopAnalysis.
Proof.
  unfold stopAnalysis. apply preserves_bind.
  - apply manager_keeps. intros m. apply clearQueue_consistent.
  - intros _. apply preserves_bind; [apply preserves_getter|].
    intros [a|]; [|apply preserves_mret].
    destruct (decide _); [|apply preserves_mret].
    apply manager_keeps. intros m. apply killProcess_consistent.
Qed.

Lemma analyzeProject_preserves (w : World) :
  preserves I (analyzeProject w).
Proof.
  unfold analyzeProject.
  apply preserves_bind; [apply stopAnalysis_preserves|]. intros _.
  apply preserves_bind; [apply getAnalyzeCmdLine_preserves|].
  intros [cmdLine|]; [|apply preserves_mret].
  apply manager_keeps. intros m. apply addToQueue_consistent.
Qed.

End Requests.

(** ** Watching the database paths *)

Lemma pushBoth_listeners (watches : list nat) (s : State) :
  listeners (forEach watches pushBoth s).2 =
  (listeners s ++ listenersFor watches)%list.
Proof.
  revert s. induction watches as [|watch watches IH]; intros s.
  - cbn. rewrite app_nil_r. reflexivity.
  - cbn [forEach]. rewrite bind_run, IH.
    unfold pushBoth at 1. rewrite bind_run. cbn.
    rewrite <- !app_assoc. reflexivity.
Qed.

Lemma pushBoth_frame (watches : list nat) (s : State) :
  besidesListeners (forEach watches pushBoth s).2 = besidesListeners s.
Proof.
  apply (preserves_forEach (fun s' => besidesListeners s' = besidesListeners s));
    [|reflexivity].
  intros watch s' Hs'. unfold pushBoth. rewrite bind_run. exact Hs'.
Qed.

Lemma length_disposed {A : Type} (f : A -> A) (ids : list nat) (l : list A) :
  length (foldl (fun ls i => alter f i ls) l ids) = length l.
Proof.
  revert l. induction ids as [|i ids IH]; intros l; [reflexivity|].
  cbn. rewrite IH, length_alter. reflexivity.
Qed.

Lemma updateDatabasePaths_no_folder (w : World) (s : State) :
  workspaceFolders w = [] -> updateDatabasePaths w s = (tt, s).
Proof. intros Hw. unfold updateDatabasePaths. rewrite Hw. reflexivity. Qed.

Lemma updateDatabasePaths_run (w : World) (s : State)
    (folder : string) (folders : list string) :
  workspaceFolders w = folder :: folders ->
  updateDatabasePaths w s =
  let s1 := (setDatabasePaths (databasePathsOf w folder) s).2 in
  let s2 := (disposeDatabaseEvents s1).2 in
  let s3 := (disposeDatabaseWatches s2).2 in
  let s4 := (createDatabaseWatches (omap id (databasePaths s3)) s3).2 in
  fireDatabaseLocationChanged (forEach (databaseWatches s4) pushBoth s4).2.
Proof.
  intros Hw. unfold updateDatabasePaths. rewrite Hw.
  rewrite !bind_run. reflexivity.
Qed.

Lemma updateDatabasePaths_fields (w : World) (s : State)
    (folder : string) (folders : list string) :
  workspaceFolders w = folder :: folders ->
  let s' := (updateDatabasePaths w s).2 in
  let patterns := omap id (databasePathsOf w folder) in
  databasePaths s' = databasePathsOf w folder /\
  databaseWatches s' = seq (length (watchers s)) (length patterns) /\
  (exists old, length old = length (watchers s) /\
               watchers s' = (old ++ map newWatcher patterns)%list) /\
  (exists old, listeners s' =
               (old ++ listenersFor (databaseWatches s'))%list) /\
  bridgeMessages s' = bridgeMessages s /\
  warningMessages s' = warningMessages s /\
  executorManager s' = executorManager s /\
  databaseLocationChanged s' = S (databaseLocationChanged s).
Proof.
  intros Hw s' patterns. subst s'.
  rewrite (updateDatabasePaths_run w s folder folders Hw). cbv zeta.
  match goal with
  | |- context [forEach ?ws pushBoth ?s0] =>
      pose proof (pushBoth_frame ws s0) as Hframe;
      pose proof (pushBoth_listeners ws s0) as Hlisteners;
      set (s1 := (forEach ws pushBoth s0).2) in *
  end.
  unfold besidesListeners in Hframe.
  injection Hframe as Hwatches Hpaths Hmsgs Hchanged Hwarn Hwatchers Hmgr.
  cbn [snd fst fireDatabaseLocationChanged databasePaths databaseWatches
       watchers listeners bridgeMessages warningMessages executorManager
       databaseLocationChanged].
  rewrite Hwatches, Hpaths, Hmsgs, Hchanged, Hwarn, Hwatchers, Hmgr,
    Hlisteners.
  cbn [snd fst createDatabaseWatches disposeDatabaseWatches
       disposeDatabaseEvents setDatabasePaths databasePaths databaseWatches
       watchers listeners bridgeMessages warningMessages executorManager
       databaseLocationChanged].
  fold patterns. rewrite length_disposed.
  split; [reflexivity|]. split; [reflexivity|]. split.
  { eexists. split; [|reflexivity]. apply length_disposed. }
  split; [eexists; reflexivity|]. auto.
Qed.

Lemma updateDatabasePaths_armed (w : World) (s : State) :
  workspaceFolders w <> [] -> armed (updateDatabasePaths w s).2.
Proof.
  intros Hfolder.
  destruct (workspaceFolders w) as [|folder folders] eqn:Hw; [contradiction|].
  destruct (updateDatabasePaths_fields w s folder folders Hw)
    as (Hpaths & Hwatches & (oldW & HlenW & Hwatchers) &
        (oldL & Hlisteners) & _).
  intros pattern Hin. rewrite Hpaths in Hin.
  assert (Hpat : pattern ∈ omap id (databasePathsOf w folder)).
  { apply list_elem_of_omap. exists (Some pattern). auto. }
  apply list_elem_of_lookup in Hpat as [j Hj].
  exists (length (watchers s) + j).
  assert (Hwatch : length (watchers s) + j ∈
                   databaseWatches (updateDatabasePaths w s).2).
  { rewrite Hwatches. apply elem_of_seq.
    pose proof (lookup_lt_Some _ _ _ Hj). lia. }
  split; [exact Hwatch|]. split.
  - rewrite Hwatchers, lookup_app_r by lia.
    replace (length (watchers s) + j - length oldW) with j by lia.
    rewrite list_lookup_fmap, Hj. reflexivity.
  - intros k. rewrite Hlisteners. apply elem_of_app. right.
    unfold listenersFor. apply list_elem_of_bind.
    exists (length (watchers s) + j). split; [|exact Hwatch].
    destruct k; [left|right; left].
Qed.

Lemma forEach_fireDatabaseLocationChanged {A : Type} (l : list A) (s : State) :
  forEach l (fun _ => fireDatabaseLocationChanged) s =
  (tt, addLocationChanged (length l) s).
Proof.
  revert s. induction l as [|x l IH]; intros s.
  - destruct s. reflexivity.
  - cbn [forEach]. rewrite bind_run, IH. unfold addLocationChanged. cbn.
    do 2 f_equal. lia.
Qed.

Lemma fileSystemEvent_run (k : FsEventKind) (path : string) (s : State) :
  fileSystemEvent k path s =
  (tt, addLocationChanged
         (length (filter (fun l => listens s k path l = true) (listeners s)))
         s).
Proof. unfold fileSystemEvent. apply forEach_fireDatabaseLocationChanged. Qed.

Lemma armed_listens (s : State) (pattern path : string) (k : FsEventKind) :
  armed s -> Some pattern ∈ databasePaths s ->
  watchMatches pattern path = true ->
  0 < length (filter (fun l => listens s k path l = true) (listeners s)).
Proof.
  intros Harmed Hin Hmatch.
  destruct (Harmed pattern Hin) as (watch & _ & Hwatcher & Hlisteners).
  assert (Hl : newListener watch k ∈
               filter (fun l => listens s k path l = true) (listeners s)).
  { apply list_elem_of_filter. split; [|apply Hlisteners].
    unfold listens. cbn. rewrite Hwatcher. cbn. rewrite Hmatch.
    rewrite bool_decide_eq_true_2 by reflexivity. reflexivity. }
  destruct (filter _ (listeners s)); [inversion Hl|cbn; lia].
Qed.

(** *** The two invariants along any run of the bridge *)

Lemma sound_fire (msg : string) :
  bridgeLine msg -> preserves sound (fireBridgeMessage msg).
Proof.
  intros Hmsg s [Hm Hl]. split; [exact Hm|]. cbn.
  apply Forall_app. split; [exact Hl|]. constructor; [exact Hmsg|constructor].
Qed.

Lemma sound_warning (msg : string) : preserves sound (showWarningMessage msg).
Proof. intros s Hs. exact Hs. Qed.

Lemma sound_manager (f : ExecutorManager -> ExecutorManager) :
  (forall m, consistent m -> consistent (f m)) -> preserves sound (onManager f).
Proof. intros Hf s [Hm Hl]. split; [apply Hf, Hm|exact Hl]. Qed.

Lemma updateDatabasePaths_sound (w : World) :
  preserves sound (updateDatabasePaths w).
Proof.
  intros s [Hm Hl].
  destruct (workspaceFolders w) as [|folder folders] eqn:Hw.
  - rewrite (updateDatabasePaths_no_folder w s Hw). split; assumption.
  - destruct (updateDatabasePaths_fields w s folder folders Hw)
      as (_ & _ & _ & _ & Hmsgs & _ & Hmgr & _).
    unfold sound. rewrite Hmsgs, Hmgr. split; assumption.
Qed.

Lemma perform_sound (w : World) (c : Command) : preserves sound (perform w c).
Proof.
  destruct c; cbn [perform].
  - apply analyzeCurrentFile_preserves;
      auto using sound_fire, sound_warning, sound_manager.
  - apply selectAndAnalyzeFile_preserves;
      auto using sound_fire, sound_warning, sound_manager.
  - apply analyzeProject_preserves;
      auto using sound_fire, sound_warning, sound_manager.
  - apply stopAnalysis_preserves;
      auto using sound_fire, sound_warning, sound_manager.
  - apply analyzeOnSave_preserves;
      auto using sound_fire, sound_warning, sound_manager.
  - apply updateDatabasePaths_sound.
  - apply sound_manager. intros m. apply complete_consistent.
Qed.

Lemma perform_watching (w : World) (c : Command) (s : State) :
  c <> ChangeConfiguration -> watching (perform w c s).2 = watching s.
Proof.
  intros Hc.
  assert (Hfire : forall msg, bridgeLine msg ->
            preserves (fun s' => watching s' = watching s)
                      (fireBridgeMessage msg))
    by (intros msg _ s' Hs'; exact Hs').
  assert (Hwarn : forall msg,
            preserves (fun s' => watching s' = watching s)
                      (showWarningMessage msg))
    by (intros msg s' Hs'; exact Hs').
  assert (Hmgr : forall f : ExecutorManager -> ExecutorManager,
            (forall m, consistent m -> consistent (f m)) ->
            preserves (fun s' => watching s' = watching s) (onManager f))
    by (intros f _ s' Hs'; exact Hs').
  destruct c; cbn [perform].
  - apply (analyzeCurrentFile_preserves _ Hfire Hwarn Hmgr). reflexivity.
  - apply (selectAndAnalyzeFile_preserves _ Hfire Hwarn Hmgr). reflexivity.
  - apply (analyzeProject_preserves _ Hfire Hwarn Hmgr). reflexivity.
  - apply (stopAnalysis_preserves _ Hmgr). reflexivity.
  - apply (analyzeOnSave_preserves _ Hfire Hwarn Hmgr). reflexivity.
  - contradiction.
  - reflexivity.
Qed.

Lemma perform_armed (w : World) (c : Command) : preserves armed (perform w c).
Proof.
  intros s Harmed.
  assert (Hother : c <> ChangeConfiguration -> armed (perform w c s).2).
  { intros Hc. pose proof (perform_watching w c s Hc) as Hsame.
    unfold watching in Hsame.
    injection Hsame as Hwatches _ Hpaths Hwatchers Hlisteners _.
    unfold armed. rewrite Hwatches, Hpaths, Hwatchers, Hlisteners.
    exact Harmed. }
  destruct c; try (apply Hother; discriminate).
  cbn [perform].
  destruct (workspaceFolders w) as [|folder folders] eqn:Hw.
  - rewrite (updateDatabasePaths_no_folder w s Hw). exact Harmed.
  - apply updateDatabasePaths_armed. rewrite Hw. discriminate.
Qed.

Lemma performAll_preserves (I : State -> Prop) :
  (forall w c, preserves I (perform w c)) ->
  forall cs s, I s -> I (performAll cs s).
Proof.
  intros Hstep cs. induction cs as [|[w c] cs IH]; intros s Hs; [exact Hs|].
  cbn [performAll]. apply IH, Hstep, Hs.
Qed.

Lemma initialState_sound : sound initialState.
Proof. split; [reflexivity|constructor]. Qed.

Lemma initialState_armed : armed initialState.
Proof. intros pattern Hin. inversion Hin. Qed.

(** C8: every string [getCompileCommandsPath] fires on the
    [bridgeMessages] channel begins with [>>> ] and ends with a newline,
    on every path through the method, and what was fired before is kept;
    so after any sequence of requests the channel has carried only such
    lines. *)
Theorem getCompileCommandsPath_fires_lines (w : World) (s : State) :
  (exists fired : list string,
     bridgeMessages (getCompileCommandsPath w s).2 =
       (bridgeMessages s ++ fired)%list /\
     Forall bridgeLine fired) /\
  (forall cs : list (World * Command),
     Forall bridgeLine (bridgeMessages (performAll cs initialState))).
Proof.
  split.
  - exists (compileCommandsMessages w (databasePaths s)).
    rewrite getCompileCommandsPath_run. split; [reflexivity|].
    apply compileCommandsMessages_lines.
  - intros cs.
    apply (performAll_preserves sound perform_sound cs initialState).
    apply initialState_sound.
Qed.

(** C1: at most one process is live at any time.  Whatever sequence of
    submissions, queue clearings, stop and kill requests and completion
    signals reaches the manager, in every state passed through the live
    processes are exactly the active unit, so there is at most one, and
    the runner has started exactly that many more processes than have
    completed.  The same holds after any sequence of requests made
    through the bridge. *)
Theorem at_most_one_process_live :
  (forall es : list Manager.Event,
     Forall (fun m => length (liveProcesses m) <= 1 /\
                      liveProcesses m = option_list (activeProcess m) /\
                      startedCount (runnerLog m) =
                        completedCount (runnerLog m) +
                        length (liveProcesses m))
            (Manager.states es emptyManager)) /\
  (forall cs : list (World * Command),
     length (liveProcesses (executorManager (performAll cs initialState)))
     <= 1).
Proof.
  split.
  - intros es.
    pose proof (states_consistent es emptyManager eq_refl) as Hc.
    pose proof (states_accounted es emptyManager eq_refl) as Ha.
    rewrite Forall_forall in Hc, Ha |- *. intros m Hm.
    split; [apply consistent_at_most_one, Hc, Hm|].
    split; [apply Hc, Hm|apply Ha, Hm].
  - intros cs. apply consistent_at_most_one.
    apply (performAll_preserves sound perform_sound cs initialState).
    apply initialState_sound.
Qed.

(** C7: in every state the bridge reaches, the creation and the deletion
    of a file matched by the watcher of one of the database paths each
    fire [databaseLocationChanged] (once per watcher on that path); the
    callback does nothing else: the database paths are not recomputed and
    the watchers, the executor manager, the message channel and the
    warnings are untouched. *)
Theorem watched_path_fires_location_changed (cs : list (World * Command))
    (pattern path : string) (k : FsEventKind) :
  let s := performAll cs initialState in
  let s' := (fileSystemEvent k path s).2 in
  (Some pattern ∈ databasePaths s -> watchMatches pattern path = true ->
     databaseLocationChanged s < databaseLocationChanged s') /\
  databasePaths s' = databasePaths s /\
  databaseWatches s' = databaseWatches s /\
  watchers s' = watchers s /\
  listeners s' = listeners s /\
  executorManager s' = executorManager s /\
  bridgeMessages s' = bridgeMessages s /\
  warningMessages s' = warningMessages s.
Proof.
  intros s s'. subst s'. rewrite fileSystemEvent_run. cbn [snd].
  split; [|repeat split; reflexivity].
  intros Hin Hmatch. cbn [addLocationChanged databaseLocationChanged].
  assert (Harmed : armed s).
  { apply (performAll_preserves armed perform_armed cs initialState).
    apply initialState_armed. }
  pose proof (armed_listens s pattern path k Harmed Hin Hmatch). lia.
Qed.

(** ** Which settings the bridge reads *)

Lemma sameReadings_of_settings (names : list string) (w1 w2 : World) :
  readsOnlyItsSetting ->
  sameExceptSettings names w1 w2 ->
  (forall name, name ∈ settingsRead -> name ∉ names) ->
  sameReadings w1 w2.
Proof.
  intros Hlocal (Hw & Hex & Hed & Hdlg & Hcfg) Hdisjoint.
  assert (Hget : forall category name,
            settingName category name ∈ settingsRead ->
            getConfiguration w1 category name =
            getConfiguration w2 category name).
  { intros category name Hin. unfold getConfiguration.
    apply Hcfg, Hdisjoint, Hin. }
  repeat (split; [assumption|]). split; [|exact Hget].
  intros category name Hin. apply Hlocal; [exact Hw|apply Hget, Hin].
Qed.

Ltac read_setting :=
  unfold settingsRead;
  repeat first [apply list_elem_of_here | apply list_elem_of_further].

Section SameReadings.

Variables w1 w2 : World.
Hypothesis Hsame : sameReadings w1 w2.

Lemma firstExisting_same (paths : list (option string)) :
  firstExisting w1 paths = firstExisting w2 paths.
Proof.
  destruct Hsame as (_ & Hex & _).
  induction paths as [|[p|] paths IH]; cbn; [reflexivity| |exact IH].
  rewrite Hex, IH. reflexivity.
Qed.

Lemma executablePath_same : executablePath w1 = executablePath w2.
Proof.
  destruct Hsame as (_ & _ & _ & _ & Hget & _).
  unfold executablePath. rewrite Hget by read_setting. reflexivity.
Qed.

Lemma outputFolder_same (folder : string) :
  outputFolder w1 folder = outputFolder w2 folder.
Proof.
  destruct Hsame as (_ & _ & _ & _ & Hget & _).
  unfold outputFolder. rewrite Hget by read_setting. reflexivity.
Qed.

Lemma compileCommandsPath_same (paths : list (option string)) :
  compileCommandsPath w1 paths = compileCommandsPath w2 paths.
Proof.
  unfold compileCommandsPath. destruct Hsame as (-> & _).
  rewrite firstExisting_same. reflexivity.
Qed.

Lemma compileCommandsMessages_same (paths : list (option string)) :
  compileCommandsMessages w1 paths = compileCommandsMessages w2 paths.
Proof.
  unfold compileCommandsMessages. destruct Hsame as (-> & _).
  rewrite firstExisting_same. reflexivity.
Qed.

Lemma getCompileCommandsPath_same (s : State) :
  getCompileCommandsPath w1 s = getCompileCommandsPath w2 s.
Proof.
  rewrite !getCompileCommandsPath_run.
  rewrite compileCommandsPath_same, compileCommandsMessages_same.
  reflexivity.
Qed.

Lemma analyzeCmdLine_same (paths : list (option string))
    (files : list Uri) :
  analyzeCmdLine w1 paths files = analyzeCmdLine w2 paths files.
Proof.
  unfold analyzeCmdLine, analyzeCmdLineWith.
  rewrite firstExisting_same, executablePath_same.
  destruct Hsame as (-> & _ & _ & _ & Hget & Hcfg).
  destruct (workspaceFolders w2) as [|folder folders]; [reflexivity|].
  rewrite outputFolder_same.
  rewrite (Hget "codechecker.executor" "arguments") by read_setting.
  rewrite (Hcfg "codechecker.executor" "threadCount") by read_setting.
  reflexivity.
Qed.

Lemma afterAnalyzeCmdLine_same (s : State) :
  afterAnalyzeCmdLine w1 s = afterAnalyzeCmdLine w2 s.
Proof.
  unfold afterAnalyzeCmdLine.
  rewrite compileCommandsMessages_same, firstExisting_same.
  destruct Hsame as (-> & _). reflexivity.
Qed.

Lemma getAnalyzeCmdLine_same (files : list Uri) (s : State) :
  getAnalyzeCmdLine w1 files s = getAnalyzeCmdLine w2 files s.
Proof.
  rewrite !getAnalyzeCmdLine_run.
  rewrite analyzeCmdLine_same, afterAnalyzeCmdLine_same. reflexivity.
Qed.

Lemma analyzeFile_same (file : Uri) (s : State) :
  analyzeFile w1 file s = analyzeFile w2 file s.
Proof.
  rewrite !analyzeFile_run.
  rewrite analyzeCmdLine_same, afterAnalyzeCmdLine_same. reflexivity.
Qed.

Lemma forEach_same {A : Type} (body1 body2 : A -> M unit) (l : list A) :
  (forall x s, body1 x s = body2 x s) ->
  forall s, forEach l body1 s = forEach l body2 s.
Proof.
  intros Hbody. induction l as [|x l IH]; intros s; [reflexivity|].
  cbn [forEach]. rewrite !bind_run, Hbody, IH. reflexivity.
Qed.

Lemma analyzeCurrentFile_same (s : State) :
  analyzeCurrentFile w1 s = analyzeCurrentFile w2 s.
Proof.
  unfold analyzeCurrentFile. destruct Hsame as (_ & _ & -> & _).
  destruct (activeTextEditor w2); [apply analyzeFile_same|reflexivity].
Qed.

Lemma analyzeOnSave_same (s : State) :
  analyzeOnSave w1 s = analyzeOnSave w2 s.
Proof.
  rewrite !analyzeOnSave_run. cbv zeta.
  rewrite getCompileCommandsPath_same.
  destruct Hsame as (_ & _ & _ & _ & _ & Hcfg).
  rewrite (Hcfg "codechecker.executor" "runOnSave") by read_setting.
  destruct (truthy _); [|reflexivity].
  destruct (getCompileCommandsPath w2 s).1;
    [apply analyzeCurrentFile_same|reflexivity].
Qed.

Lemma selectAndAnalyzeFile_same (files : list string) (s : State) :
  selectAndAnalyzeFile w1 files s = selectAndAnalyzeFile w2 files s.
Proof.
  unfold selectAndAnalyzeFile. destruct files as [|file files].
  - destruct Hsame as (_ & _ & _ & -> & _).
    destruct (showOpenDialog w2); [|reflexivity].
    apply forEach_same. intros x s'. apply analyzeFile_same.
  - apply forEach_same. intros x s'. apply analyzeFile_same.
Qed.

Lemma analyzeProject_same (s : State) :
  analyzeProject w1 s = analyzeProject w2 s.
Proof.
  rewrite !analyzeProject_run. cbv zeta.
  rewrite analyzeCmdLine_same, afterAnalyzeCmdLine_same. reflexivity.
Qed.

Lemma updateDatabasePaths_same (s : State) :
  updateDatabasePaths w1 s = updateDatabasePaths w2 s.
Proof.
  unfold updateDatabasePaths.
  destruct Hsame as (Hw & _ & _ & _ & Hget & _). rewrite Hw.
  destruct (workspaceFolders w2) as [|folder folders]; [reflexivity|].
  rewrite outputFolder_same.
  rewrite (Hget "codechecker.backend" "databasePath") by read_setting.
  reflexivity.
Qed.

Lemma perform_same (c : Command) (s : State) :
  perform w1 c s = perform w2 c s.
Proof.
  destruct c; cbn [perform].
  - apply analyzeCurrentFile_same.
  - apply selectAndAnalyzeFile_same.
  - apply analyzeProject_same.
  - reflexivity.
  - apply analyzeOnSave_same.
  - apply updateDatabasePaths_same.
  - reflexivity.
Qed.

Lemma getLogCmdLine_same : getLogCmdLine w1 = getLogCmdLine w2.
Proof.
  unfold getLogCmdLine. rewrite executablePath_same.
  destruct Hsame as (-> & _).
  destruct (workspaceFolders w2) as [|folder folders]; [reflexivity|].
  rewrite outputFolder_same. reflexivity.
Qed.

End SameReadings.

Lemma settingsRead_outside (names : list string) :
  Forall (fun name => name ∉ settingsRead) names ->
  forall name, name ∈ settingsRead -> name ∉ names.
Proof.
  intros Hall name Hread Hin. rewrite Forall_forall in Hall.
  exact (Hall name Hin Hread).
Qed.

(** C9: the setting the manifest declares,
    [codechecker.backend.compilationDatabasePath], is not among the
    settings the bridge reads; what [updateDatabasePaths] reads is
    [codechecker.backend.databasePath], which the manifest does not
    declare.  So two snapshots of the editor that differ only in the
    value of the declared setting give the same database paths, the same
    result of [getCompileCommandsPath], and the same outcome of every
    request. *)
Theorem compilationDatabasePath_setting_ignored (w1 w2 : World) :
  readsOnlyItsSetting ->
  sameExceptSettings ["codechecker.backend.compilationDatabasePath"] w1 w2 ->
  ("codechecker.backend.compilationDatabasePath" ∈ manifestProperties) /\
  (settingName "codechecker.backend" "databasePath" ∉ manifestProperties) /\
  (settingName "codechecker.backend" "databasePath" ∈ settingsRead) /\
  ("codechecker.backend.compilationDatabasePath" ∉ settingsRead) /\
  forall s : State,
    updateDatabasePaths w1 s = updateDatabasePaths w2 s /\
    databasePaths (updateDatabasePaths w1 s).2 =
      databasePaths (updateDatabasePaths w2 s).2 /\
    getCompileCommandsPath w1 s = getCompileCommandsPath w2 s /\
    (forall c, perform w1 c s = perform w2 c s) /\
    (forall cs, performAll (map (fun c => (w1, c)) cs) s =
                performAll (map (fun c => (w2, c)) cs) s).
Proof.
  intros Hlocal Hdiff.
  assert (Hunread : "codechecker.backend.compilationDatabasePath" ∉ settingsRead)
    by (apply (bool_decide_unpack _); vm_compute; exact I).
  assert (Hsame : sameReadings w1 w2).
  { apply (sameReadings_of_settings _ w1 w2 Hlocal Hdiff).
    apply settingsRead_outside. constructor; [exact Hunread|constructor]. }
  split; [apply (bool_decide_unpack _); vm_compute; exact I|].
  split; [apply (bool_decide_unpack _); vm_compute; exact I|].
  split; [read_setting|]. split; [exact Hunread|].
  intros s. split; [apply updateDatabasePaths_same, Hsame|].
  split; [rewrite (updateDatabasePaths_same w1 w2 Hsame); reflexivity|].
  split; [apply getCompileCommandsPath_same, Hsame|].
  split; [intros c; apply perform_same, Hsame|].
  intros cs. revert s. induction cs as [|c cs IH]; intros s; [reflexivity|].
  cbn [map performAll]. rewrite (perform_same w1 w2 Hsame). apply IH.
Qed.

(** C10: with a folder open, [getLogCmdLine] returns the executable
    followed by [log], the output path [compile_commands.json] joined to
    the output folder, and the build command [make], literally; the
    settings [codechecker.executor.logBuildCommand] and
    [codechecker.executor.logArguments] are not read, so their values do
    not change the result.  With no folder open it returns [undefined]. *)
Theorem getLogCmdLine_builds_with_make (w : World) :
  (workspaceFolders w = [] -> getLogCmdLine w = None) /\
  (forall folder folders, workspaceFolders w = folder :: folders ->
     getLogCmdLine w =
     Some (executablePath w +:+ " log --output " +:+ dquote +:+
           path_join (outputFolder w folder) "compile_commands.json" +:+
           dquote +:+ " --build " +:+ dquote +:+ "make" +:+ dquote)) /\
  ("codechecker.executor.logBuildCommand" ∉ settingsRead) /\
  ("codechecker.executor.logArguments" ∉ settingsRead) /\
  (readsOnlyItsSetting ->
   forall w', sameExceptSettings ["codechecker.executor.logBuildCommand";
                                  "codechecker.executor.logArguments"] w w' ->
     getLogCmdLine w = getLogCmdLine w').
Proof.
  assert (Hbuild : "codechecker.executor.logBuildCommand" ∉ settingsRead)
    by (apply (bool_decide_unpack _); vm_compute; exact I).
  assert (Hargs : "codechecker.executor.logArguments" ∉ settingsRead)
    by (apply (bool_decide_unpack _); vm_compute; exact I).
  split; [intros Hw; unfold getLogCmdLine; rewrite Hw; reflexivity|].
  split.
  { intros folder folders Hw. unfold getLogCmdLine. rewrite Hw.
    cbv zeta. f_equal. unfold join, quoted.
    rewrite !append_assoc. reflexivity. }
  split; [exact Hbuild|]. split; [exact Hargs|].
  intros Hlocal w' Hdiff. apply getLogCmdLine_same.
  apply (sameReadings_of_settings _ w w' Hlocal Hdiff).
  apply settingsRead_outside.
  constructor; [exact Hbuild|]. constructor; [exact Hargs|constructor].
Qed.

(** ** The database lookup *)

Lemma firstExisting_Some (w : World) (paths : list (option string))
    (p : string) :
  firstExisting w paths = Some p <->
  exists n, paths !! n = Some (Some p) /\ usable w p = true /\
            forall m q, m < n -> paths !! m = Some (Some q) ->
                        usable w q = false.
Proof.
  unfold usable. induction paths as [|[q|] paths IH]; cbn [firstExisting].
  - split; [discriminate|]. intros (n & Hn & _). destruct n; discriminate Hn.
  - destruct (negb (String.eqb q EmptyString) && existsSync w q) eqn:Hq.
    + split.
      * intros [= ->]. exists 0. split; [reflexivity|]. split; [exact Hq|].
        intros m q' Hm. lia.
      * intros (n & Hn & Hp & Hbefore). destruct n as [|n].
        -- cbn in Hn. congruence.
        -- rewrite (Hbefore 0 q) in Hq by (cbn; auto with lia). discriminate Hq.
    + rewrite IH. split.
      * intros (n & Hn & Hp & Hbefore). exists (S n).
        split; [exact Hn|]. split; [exact Hp|].
        intros [|m] q' Hm Hq'.
        -- cbn in Hq'. injection Hq' as <-. exact Hq.
        -- apply (Hbefore m q'); [lia|exact Hq'].
      * intros (n & Hn & Hp & Hbefore). destruct n as [|n].
        -- cbn in Hn. injection Hn as ->. rewrite Hp in Hq. discriminate Hq.
        -- exists n. split; [exact Hn|]. split; [exact Hp|].
           intros m q' Hm Hq'. apply (Hbefore (S m) q'); [lia|exact Hq'].
  - rewrite IH. split.
    + intros (n & Hn & Hp & Hbefore). exists (S n).
      split; [exact Hn|]. split; [exact Hp|].
      intros [|m] q' Hm Hq'; [discriminate Hq'|].
      apply (Hbefore m q'); [lia|exact Hq'].
    + intros (n & Hn & Hp & Hbefore). destruct n as [|n]; [discriminate Hn|].
      exists n. split; [exact Hn|]. split; [exact Hp|].
      intros m q' Hm Hq'. apply (Hbefore (S m) q'); [lia|exact Hq'].
Qed.

Lemma firstExisting_None (w : World) (paths : list (option string)) :
  firstExisting w paths = None <->
  forall q, Some q ∈ paths -> usable w q = false.
Proof.
  unfold usable. induction paths as [|[q|] paths IH]; cbn [firstExisting].
  - split; [|reflexivity]. intros _ q Hq. inversion Hq.
  - destruct (negb (String.eqb q EmptyString) && existsSync w q) eqn:Hq.
    + split; [discriminate|]. intros Hall.
      rewrite (Hall q) in Hq by left. discriminate Hq.
    + rewrite IH. split.
      * intros Hall q' Hq'. apply elem_of_cons in Hq' as [[= ->]|Hq'];
          [exact Hq|apply Hall, Hq'].
      * intros Hall q' Hq'. apply Hall. right. exact Hq'.
  - rewrite IH. split.
    + intros Hall q' Hq'. apply elem_of_cons in Hq' as [[=]|Hq'].
      apply Hall, Hq'.
    + intros Hall q' Hq'. apply Hall. right. exact Hq'.
Qed.

(** X1: with a folder open, [getCompileCommandsPath] returns the first
    database path, in the order of [databasePaths], that is a non-empty
    string and exists on disk: every path before it is unset, empty or
    missing.  It returns [undefined] exactly when no path qualifies. *)
Theorem getCompileCommandsPath_first_usable (w : World) (s : State) :
  workspaceFolders w <> [] ->
  (forall p,
     (getCompileCommandsPath w s).1 = Some p <->
     exists n, databasePaths s !! n = Some (Some p) /\
               p <> EmptyString /\ existsSync w p = true /\
               forall m q, m < n -> databasePaths s !! m = Some (Some q) ->
                           q = EmptyString \/ existsSync w q = false) /\
  ((getCompileCommandsPath w s).1 = None <->
   forall q, Some q ∈ databasePaths s ->
             q = EmptyString \/ existsSync w q = false).
Proof.
  intros Hfolder. rewrite getCompileCommandsPath_run. cbn [fst].
  unfold compileCommandsPath.
  destruct (workspaceFolders w) as [|folder folders]; [contradiction|].
  assert (Husable : forall q, usable w q = true <->
                              q <> EmptyString /\ existsSync w q = true).
  { intros q. unfold usable. rewrite andb_true_iff, negb_true_iff.
    rewrite String.eqb_neq. reflexivity. }
  assert (Hunusable : forall q, usable w q = false <->
                                q = EmptyString \/ existsSync w q = false).
  { intros q. unfold usable. rewrite andb_false_iff, negb_false_iff.
    rewrite String.eqb_eq. reflexivity. }
  split.
  - intros p. rewrite firstExisting_Some. split.
    + intros (n & Hn & Hp & Hbefore). exists n. split; [exact Hn|].
      apply Husable in Hp as [Hne Hex]. split; [exact Hne|].
      split; [exact Hex|]. intros m q Hm Hq. apply Hunusable.
      apply (Hbefore m q Hm Hq).
    + intros (n & Hn & Hne & Hex & Hbefore). exists n. split; [exact Hn|].
      split; [apply Husable; auto|]. intros m q Hm Hq. apply Hunusable.
      apply (Hbefore m q Hm Hq).
  - rewrite firstExisting_None. split.
    + intros Hall q Hq. apply Hunusable, Hall, Hq.
    + intros Hall q Hq. apply Hunusable, Hall, Hq.
Qed.

(** X2: when no database is found while a folder is open,
    [getCompileCommandsPath] fires the heading and then one line for each
    database path, in order: a path that is set and not empty is printed
    after [>>>   ], and nothing else is fired.  When a database is found,
    exactly one line is fired and it names the path returned.  With no
    folder open nothing is fired. *)
Theorem getCompileCommandsPath_reports (w : World) (s : State) :
  let fired :=
    drop (length (bridgeMessages s))
         (bridgeMessages (getCompileCommandsPath w s).2) in
  (workspaceFolders w = [] -> fired = []) /\
  (workspaceFolders w <> [] ->
   forall p, (getCompileCommandsPath w s).1 = Some p ->
     fired = [">>> Database found at path: " +:+ p +:+ newline]) /\
  (workspaceFolders w <> [] -> (getCompileCommandsPath w s).1 = None ->
     length fired = S (length (databasePaths s)) /\
     fired !! 0 =
       Some (">>> No database found in the following paths:" +:+ newline) /\
     forall n p, databasePaths s !! n = Some (Some p) -> p <> EmptyString ->
       fired !! S n = Some (">>>   " +:+ p +:+ newline)).
Proof.
  intros fired. subst fired. rewrite getCompileCommandsPath_run.
  cbn [fst snd addBridgeMessages bridgeMessages].
  rewrite drop_app_length.
  unfold compileCommandsPath, compileCommandsMessages.
  destruct (workspaceFolders w) as [|folder folders].
  - split; [reflexivity|]. split; intros Hfolder; contradiction.
  - split; [discriminate|].
    destruct (firstExisting w (databasePaths s)) as [found|].
    + split; [|discriminate]. intros _ p [= ->]. reflexivity.
    + split; [intros _ p Hp; discriminate Hp|]. intros _ _.
      split; [cbn; rewrite length_map; reflexivity|].
      split; [reflexivity|]. intros n p Hn Hp.
      change ((triedPathLine <$> databasePaths s) !! n =
              Some (">>>   " +:+ p +:+ newline)).
      rewrite list_lookup_fmap, Hn. cbn.
      unfold triedPathLine. cbn.
      apply String.eqb_neq in Hp. rewrite Hp. reflexivity.
Qed.

(** ** Watchers and subscriptions over time *)

Lemma pushBoth_events (watches : list nat) (s : State) :
  databaseEvents (forEach watches pushBoth s).2 =
  (databaseEvents s ++
   seq (length (listeners s)) (2 * length watches))%list.
Proof.
  revert s. induction watches as [|watch watches IH]; intros s.
  - cbn. rewrite app_nil_r. reflexivity.
  - cbn [forEach]. rewrite bind_run, IH.
    unfold pushBoth at 1 2. rewrite !bind_run. cbn [fst snd].
    cbn [pushDatabaseEvent fst snd databaseEvents listeners].
    rewrite !length_app. cbn [length].
    replace (2 * S (length watches)) with (S (S (2 * length watches))) by lia.
    cbn [seq]. rewrite <- !app_assoc. cbn [app].
    replace (length (listeners s) + 1 + 1) with (S (S (length (listeners s))))
      by lia.
    replace (length (listeners s) + 1) with (S (length (listeners s))) by lia.
    reflexivity.
Qed.

Lemma updateDatabasePaths_subscriptions (w : World) (s : State)
    (folder : string) (folders : list string) :
  workspaceFolders w = folder :: folders ->
  let s' := (updateDatabasePaths w s).2 in
  let patterns := omap id (databasePathsOf w folder) in
  watchers s' =
    (foldl (fun ws i => alter disposeWatcher i ws)
           (watchers s) (databaseWatches s) ++
     map newWatcher patterns)%list /\
  listeners s' =
    (foldl (fun ls i => alter disposeListener i ls)
           (listeners s) (databaseEvents s) ++
     listenersFor (databaseWatches s'))%list /\
  databaseEvents s' =
    (databaseEvents s ++
     seq (length (listeners s)) (2 * length (databaseWatches s')))%list.
Proof.
  intros Hw s' patterns. subst s'.
  rewrite (updateDatabasePaths_run w s folder folders Hw). cbv zeta.
  match goal with
  | |- context [forEach ?ws pushBoth ?s0] =>
      pose proof (pushBoth_frame ws s0) as Hframe;
      pose proof (pushBoth_listeners ws s0) as Hlisteners;
      pose proof (pushBoth_events ws s0) as Hevents;
      set (s1 := (forEach ws pushBoth s0).2) in *
  end.
  unfold besidesListeners in Hframe.
  injection Hframe as Hwatches _ _ _ _ Hwatchers _.
  cbn [snd fst fireDatabaseLocationChanged databaseWatches watchers
       listeners databaseEvents].
  rewrite Hwatches, Hwatchers, Hlisteners, Hevents.
  cbn [snd fst createDatabaseWatches disposeDatabaseWatches
       disposeDatabaseEvents setDatabasePaths databasePaths databaseWatches
       watchers listeners databaseEvents].
  fold patterns. rewrite !length_disposed. split; [reflexivity|].
  split; reflexivity.
Qed.

Lemma disposed_lookup {A : Type} (f : A -> A) (ids : list nat) (l : list A)
    (j : nat) :
  (forall x, f (f x) = f x) ->
  foldl (fun ls i => alter f i ls) l ids !! j =
  (if decide (j ∈ ids) then f else id) <$> l !! j.
Proof.
  intros Hidem. revert l. induction ids as [|i ids IH]; intros l.
  - cbn [foldl]. rewrite decide_False by (intros Hin; inversion Hin).
    destruct (l !! j); reflexivity.
  - cbn [foldl]. rewrite IH, list_lookup_alter.
    destruct (decide (i = j)) as [->|Hij].
    + rewrite (decide_True (P := j ∈ j :: ids)) by left.
      destruct (l !! j) as [x|]; [|destruct (decide (j ∈ ids)); reflexivity].
      destruct (decide (j ∈ ids)); cbn; [rewrite Hidem|]; reflexivity.
    + destruct (decide (j ∈ ids)) as [Hin|Hout].
      * rewrite (decide_True (P := j ∈ i :: ids)) by (right; exact Hin).
        reflexivity.
      * rewrite (decide_False (P := j ∈ i :: ids)); [reflexivity|].
        intros Hin. apply elem_of_cons in Hin as [->|Hin]; contradiction.
Qed.

(** Disposing through references to all subscriptions leaves none live. *)
Lemma all_disposed (ls : list Listener) :
  Forall isDisposed
    (foldl (fun ls' i => alter disposeListener i ls') ls
           (seq 0 (length ls))).
Proof.
  apply Forall_lookup. intros j l Hl.
  rewrite (disposed_lookup disposeListener) in Hl by reflexivity.
  destruct (ls !! j) as [l0|] eqn:Hj; [|discriminate Hl].
  rewrite decide_True in Hl.
  - cbn in Hl. injection Hl as <-. reflexivity.
  - apply elem_of_seq. pose proof (lookup_lt_Some _ _ _ Hj). lia.
Qed.

Lemma disposed_stay_disposed (ids : list nat) (ls : list Listener) :
  Forall isDisposed ls ->
  Forall isDisposed (foldl (fun ls' i => alter disposeListener i ls') ls ids).
Proof.
  intros Hall. apply Forall_lookup. intros j l Hl.
  rewrite (disposed_lookup disposeListener) in Hl by reflexivity.
  destruct (ls !! j) as [l0|] eqn:Hj; [|discriminate Hl].
  rewrite Forall_lookup in Hall. specialize (Hall j l0 Hj).
  destruct (decide (j ∈ ids)); cbn in Hl; injection Hl as <-;
    [reflexivity|exact Hall].
Qed.

Lemma length_listenersFor (watches : list nat) :
  length (listenersFor watches) = 2 * length watches.
Proof.
  unfold listenersFor. induction watches as [|watch watches IH];
    [reflexivity|].
  cbn [mbind list_bind app length] in IH |- *. rewrite IH. lia.
Qed.

Lemma initialState_tidy : tidy initialState.
Proof.
  split; [reflexivity|]. exists [], []. repeat split. constructor.
Qed.

Lemma updateDatabasePaths_tidy (w : World) :
  preserves tidy (updateDatabasePaths w).
Proof.
  intros s (Hevents & oldW & oldL & Hwatchers & Hwatches & Hlisteners & Hold).
  destruct (workspaceFolders w) as [|folder folders] eqn:Hw.
  { rewrite (updateDatabasePaths_no_folder w s Hw). split; [exact Hevents|].
    exists oldW, oldL. auto. }
  destruct (updateDatabasePaths_fields w s folder folders Hw)
    as (Hpaths' & Hwatches' & _).
  destruct (updateDatabasePaths_subscriptions w s folder folders Hw)
    as (Hwatchers' & Hlisteners' & Hevents').
  split.
  - rewrite Hevents', Hlisteners', Hevents, length_app, length_disposed,
      length_listenersFor.
    rewrite seq_app. reflexivity.
  - eexists _, _. rewrite Hpaths'.
    split; [exact Hwatchers'|]. split.
    { rewrite Hwatches', length_disposed. reflexivity. }
    split; [exact Hlisteners'|].
    rewrite Hevents. apply all_disposed.
Qed.

Lemma perform_tidy (w : World) (c : Command) : preserves tidy (perform w c).
Proof.
  intros s Htidy.
  assert (Hother : c <> ChangeConfiguration -> tidy (perform w c s).2).
  { intros Hc. pose proof (perform_watching w c s Hc) as Hsame.
    unfold watching in Hsame.
    injection Hsame as Hwatches Hevents Hpaths Hwatchers Hlisteners _.
    unfold tidy. rewrite Hwatches, Hevents, Hpaths, Hwatchers, Hlisteners.
    exact Htidy. }
  destruct c; try (apply Hother; discriminate).
  apply updateDatabasePaths_tidy, Htidy.
Qed.

Lemma performAll_tidy (cs : list (World * Command)) :
  tidy (performAll cs initialState).
Proof.
  apply (performAll_preserves tidy perform_tidy cs initialState).
  apply initialState_tidy.
Qed.

Lemma disposed_never_listen (s : State) (k : FsEventKind) (path : string)
    (ls : list Listener) :
  Forall isDisposed ls ->
  filter (fun l => listens s k path l = true) ls = [].
Proof.
  induction 1 as [|l ls Hl _ IH]; [reflexivity|].
  rewrite filter_cons_False; [exact IH|].
  unfold listens. rewrite Hl. discriminate.
Qed.

Lemma newest_listen_count (s : State) (k : FsEventKind) (path : string)
    (patterns : list string) (old : list FileSystemWatcher) :
  watchers s = (old ++ map newWatcher patterns)%list ->
  length (filter (fun l => listens s k path l = true)
                 (listenersFor (seq (length old) (length patterns)))) =
  length (filter (fun p => watchMatches p path = true) patterns).
Proof.
  revert old. induction patterns as [|p patterns IH]; intros old Hwatchers;
    [reflexivity|].
  cbn [length seq]. unfold listenersFor. cbn [mbind list_bind].
  fold (listenersFor (seq (S (length old)) (length patterns))).
  assert (Hwatcher : watchers s !! length old = Some (newWatcher p)).
  { rewrite Hwatchers, lookup_app_r by lia.
    replace (length old - length old) with 0 by lia. reflexivity. }
  assert (Hl : forall k', listens s k path (newListener (length old) k') =
                          bool_decide (k' = k) && watchMatches p path).
  { intros k'. unfold listens. cbn [listenerDisposed eventKind onWatcher
      newListener]. rewrite Hwatcher. reflexivity. }
  assert (Hrest :
    length (filter (fun l => listens s k path l = true)
                   (listenersFor (seq (S (length old)) (length patterns)))) =
    length (filter (fun p0 => watchMatches p0 path = true) patterns)).
  { replace (S (length old)) with (length (old ++ [newWatcher p]))
      by (rewrite length_app; cbn; lia).
    apply IH. rewrite Hwatchers, <- app_assoc. reflexivity. }
  cbn [app]. rewrite !filter_cons.
  destruct (decide (listens s k path (newListener (length old) DidCreate) = true))
    as [Hc|Hc];
  destruct (decide (listens s k path (newListener (length old) DidDelete) = true))
    as [Hd|Hd];
  destruct (decide (watchMatches p path = true)) as [Hm|Hm];
  rewrite Hl in Hc, Hd; cbn [length]; rewrite ?Hrest; try reflexivity.
  all: exfalso; repeat case_bool_decide;
    destruct (watchMatches p path); cbn in Hc, Hd;
    destruct k; congruence.
Qed.

(** X3: however many configuration changes and requests came before, the
    creation or deletion of a file fires [databaseLocationChanged] exactly
    once for each database path that is set and whose watcher matches the
    file: the watchers and subscriptions of earlier configurations have
    been disposed of and stay silent. *)
Theorem fileSystemEvent_fires_once_per_path (cs : list (World * Command))
    (k : FsEventKind) (path : string) :
  let s := performAll cs initialState in
  databaseLocationChanged (fileSystemEvent k path s).2 =
  length (filter (fun p => watchMatches p path = true)
                 (omap id (databasePaths s))) +
  databaseLocationChanged s.
Proof.
  intros s. rewrite fileSystemEvent_run.
  cbn [snd addLocationChanged databaseLocationChanged]. f_equal.
  destruct (performAll_tidy cs)
    as (_ & oldW & oldL & Hwatchers & Hwatches & Hlisteners & Hold).
  fold s in Hwatchers, Hwatches, Hlisteners.
  rewrite Hlisteners, filter_app, length_app.
  rewrite (disposed_never_listen s k path oldL Hold). cbn [length].
  rewrite Hwatches. apply newest_listen_count. exact Hwatchers.
Qed.

Lemma dispose_listeners (s : State) :
  listeners (dispose s).2 =
  foldl (fun ls i => alter disposeListener i ls)
        (listeners s) (databaseEvents s).
Proof. unfold dispose. rewrite bind_run. reflexivity. Qed.

(** X4: once the bridge has been disposed of, no creation or deletion of
    any file fires [databaseLocationChanged] any more, whatever the bridge
    had been asked before. *)
Theorem dispose_silences_watchers (cs : list (World * Command))
    (k : FsEventKind) (path : string) :
  let s := (dispose (performAll cs initialState)).2 in
  databaseLocationChanged (fileSystemEvent k path s).2 =
  databaseLocationChanged s.
Proof.
  intros s. rewrite fileSystemEvent_run.
  cbn [snd addLocationChanged databaseLocationChanged].
  rewrite (disposed_never_listen s k path (listeners s)); [reflexivity|].
  subst s. rewrite dispose_listeners.
  destruct (performAll_tidy cs) as (-> & _). apply all_disposed.
Qed.

(** X5: recomputing the database paths never touches the executor manager,
    the message channel or the warnings.  With a folder open it fires
    [databaseLocationChanged] exactly once, whether or not the paths
    changed; with no folder open it does nothing at all. *)
Theorem updateDatabasePaths_only_rewatches (w : World) (s : State) :
  let s' := (updateDatabasePaths w s).2 in
  executorManager s' = executorManager s /\
  bridgeMessages s' = bridgeMessages s /\
  warningMessages s' = warningMessages s /\
  (workspaceFolders w <> [] ->
     databaseLocationChanged s' = S (databaseLocationChanged s)) /\
  (workspaceFolders w = [] -> s' = s).
Proof.
  intros s'. subst s'.
  destruct (workspaceFolders w) as [|folder folders] eqn:Hw.
  - rewrite (updateDatabasePaths_no_folder w s Hw). cbn [snd].
    repeat (split; [reflexivity|]). split; [contradiction|reflexivity].
  - destruct (updateDatabasePaths_fields w s folder folders Hw)
      as (_ & _ & _ & _ & Hmsgs & Hwarn & Hmgr & Hfired).
    split; [exact Hmgr|]. split; [exact Hmsgs|]. split; [exact Hwarn|].
    split; [intros _; exact Hfired|discriminate].
Qed.

(** X6: with a folder open, recomputing the database paths always yields
    three paths, the two under the output folder always set, and makes one
    new watcher for each path that is set: three if the configured path is
    set, two otherwise.  Two subscriptions per new watcher are appended to
    [databaseEvents], whose earlier entries are all kept. *)
Theorem updateDatabasePaths_grows_subscriptions (w : World) (s : State)
    (folder : string) (folders : list string) :
  workspaceFolders w = folder :: folders ->
  let s' := (updateDatabasePaths w s).2 in
  let configured :=
    getConfigAndReplaceVariables w "codechecker.backend" "databasePath" in
  databasePaths s' =
    [ configured;
      Some (path_join (outputFolder w folder) "compile_commands.json");
      Some (path_join (outputFolder w folder) "compile_cmd.json") ] /\
  length (databaseWatches s') =
    match configured with Some _ => 3 | None => 2 end /\
  length (watchers s') = length (watchers s) + length (databaseWatches s') /\
  databaseEvents s' =
    (databaseEvents s ++
     seq (length (listeners s)) (2 * length (databaseWatches s')))%list /\
  length (listeners s') =
    length (listeners s) + 2 * length (databaseWatches s').
Proof.
  intros Hw s' configured.
  destruct (updateDatabasePaths_fields w s folder folders Hw)
    as (Hpaths & Hwatches & _).
  destruct (updateDatabasePaths_subscriptions w s folder folders Hw)
    as (Hwatchers & Hlisteners & Hevents).
  fold s' in Hpaths, Hwatches, Hwatchers, Hlisteners, Hevents.
  assert (Hcount : length (omap id (databasePathsOf w folder)) =
                   match configured with Some _ => 3 | None => 2 end).
  { unfold databasePathsOf. fold configured. destruct configured; reflexivity. }
  split; [exact Hpaths|].
  split; [rewrite Hwatches, length_seq; exact Hcount|].
  split.
  { rewrite Hwatchers, length_app, length_disposed, length_map.
    rewrite Hwatches, length_seq. reflexivity. }
  split; [exact Hevents|].
  rewrite Hlisteners, length_app, length_disposed, length_listenersFor.
  reflexivity.
Qed.

(** X7: no request other than a configuration change touches what the
    bridge watches: analysing, stopping, saving and process completions
    leave the database paths, the watchers, the subscriptions and the
    number of [databaseLocationChanged] firings as they were. *)
Theorem requests_leave_watching_alone (w : World) (c : Command) (s : State) :
  c <> ChangeConfiguration ->
  let s' := (perform w c s).2 in
  databasePaths s' = databasePaths s /\
  databaseWatches s' = databaseWatches s /\
  databaseEvents s' = databaseEvents s /\
  watchers s' = watchers s /\
  listeners s' = listeners s /\
  databaseLocationChanged s' = databaseLocationChanged s.
Proof.
  intros Hc s'. pose proof (perform_watching w c s Hc) as Hsame.
  unfold watching in Hsame.
  injection Hsame as Hwatches Hevents Hpaths Hwatchers Hlisteners Hfired.
  repeat split; assumption.
Qed.

(** X8: the paths are fixed when the configuration is read (snapshot
    [w0]) and probed when a database is asked for (snapshot [w]).  The
    configured path wins if it is usable; otherwise
    [compile_commands.json] under the output folder; otherwise
    [compile_cmd.json] there; otherwise nothing is found. *)
Theorem database_resolution_order (w0 w : World) (s : State)
    (folder : string) (folders : list string) :
  workspaceFolders w0 = folder :: folders ->
  workspaceFolders w <> [] ->
  let s' := (updateDatabasePaths w0 s).2 in
  let configured :=
    getConfigAndReplaceVariables w0 "codechecker.backend" "databasePath" in
  let commands := path_join (outputFolder w0 folder) "compile_commands.json" in
  let cmd := path_join (outputFolder w0 folder) "compile_cmd.json" in
  let found := (getCompileCommandsPath w s').1 in
  (forall p, configured = Some p -> usable w p = true -> found = Some p) /\
  ((forall p, configured = Some p -> usable w p = false) ->
     (usable w commands = true -> found = Some commands) /\
     (usable w commands = false -> usable w cmd = true ->
        found = Some cmd) /\
     (usable w commands = false -> usable w cmd = false -> found = None)).
Proof.
  intros Hw0 Hw s' configured commands cmd found. subst found.
  rewrite getCompileCommandsPath_run. cbn [fst]. unfold compileCommandsPath.
  destruct (workspaceFolders w) as [|f fs]; [contradiction|].
  destruct (updateDatabasePaths_fields w0 s folder folders Hw0)
    as (Hpaths & _).
  fold s' in Hpaths. rewrite Hpaths. unfold databasePathsOf.
  fold configured commands cmd. cbn [firstExisting]. unfold usable.
  split.
  - intros p -> Hp. rewrite Hp. reflexivity.
  - intros Hconfigured.
    assert (Hskip : forall rest,
              match configured with
              | Some p =>
                  if negb (String.eqb p EmptyString) && existsSync w p
                  then Some p else rest
              | None => rest
              end = rest).
    { intros rest. destruct configured as [p|]; [|reflexivity].
      unfold usable in Hconfigured. rewrite (Hconfigured p eq_refl).
      reflexivity. }
    rewrite Hskip. split; [|split].
    + intros ->. reflexivity.
    + intros -> ->. reflexivity.
    + intros -> ->. reflexivity.
Qed.

(** ** Command lines *)

(** X9: the file [getLogCmdLine] tells CodeChecker to write is the second
    database path [updateDatabasePaths] computes from the same snapshot, so
    a later lookup returns it as soon as it exists, unless a usable
    configured path takes precedence. *)
Theorem log_output_is_analysis_input (w0 : World) (s : State)
    (folder : string) (folders : list string) :
  workspaceFolders w0 = folder :: folders ->
  let s' := (updateDatabasePaths w0 s).2 in
  exists output : string,
    databasePaths s' !! 1 = Some (Some output) /\
    getLogCmdLine w0 =
      Some (executablePath w0 +:+ " log --output " +:+ quoted output +:+
            " --build " +:+ quoted "make") /\
    forall w, workspaceFolders w <> [] ->
      usable w output = true ->
      (forall p, databasePaths s' !! 0 = Some (Some p) ->
                 usable w p = false) ->
      (getCompileCommandsPath w s').1 = Some output.
Proof.
  intros Hw0 s'.
  destruct (updateDatabasePaths_fields w0 s folder folders Hw0)
    as (Hpaths & _).
  fold s' in Hpaths.
  exists (path_join (outputFolder w0 folder) "compile_commands.json").
  split; [rewrite Hpaths; reflexivity|]. split.
  - unfold getLogCmdLine. rewrite Hw0. cbv zeta. f_equal.
    unfold join, quoted. rewrite !append_assoc. reflexivity.
  - intros w Hw Houtput Hconfigured.
    rewrite getCompileCommandsPath_run. cbn [fst]. unfold compileCommandsPath.
    destruct (workspaceFolders w) as [|f fs]; [contradiction|].
    apply firstExisting_Some. exists 1. rewrite Hpaths.
    split; [reflexivity|]. split; [exact Houtput|].
    intros m q Hm Hq. destruct m as [|m]; [|lia].
    apply Hconfigured. rewrite Hpaths. exact Hq.
Qed.

(** X10: whether a command line can be formed does not depend on the files
    asked for, and the command line for some files is the one for the
    whole project followed by [--file] and the quoted paths of the files,
    in order, separated by spaces. *)
Theorem getAnalyzeCmdLine_files_suffix (w : World) (files : list Uri)
    (s : State) :
  ((getAnalyzeCmdLine w files s).1 = None <->
   (getAnalyzeCmdLine w [] s).1 = None) /\
  (forall project, (getAnalyzeCmdLine w [] s).1 = Some project ->
     files <> [] ->
     (getAnalyzeCmdLine w files s).1 =
       Some (project +:+ "--file " +:+
             join " " (map (fun uri => quoted (fsPath uri)) files))).
Proof.
  rewrite !getAnalyzeCmdLine_run. cbn [fst]. unfold analyzeCmdLine.
  destruct (workspaceFolders w) as [|folder folders].
  { split; [reflexivity|]. intros project Hp. discriminate Hp. }
  destruct (firstExisting w (databasePaths s)) as [cc|].
  2: { split; [reflexivity|]. intros project Hp. discriminate Hp. }
  split; [split; discriminate|].
  intros project [= <-] Hfiles.
  destruct files as [|file files]; [contradiction|].
  f_equal. unfold analyzeCmdLineWith.
  set (paths := join " " (map (fun uri => quoted (fsPath uri)) (file :: files))).
  cbn [join]. rewrite !append_assoc. reflexivity.
Qed.

(** X11: a save that passes both checks looks the database up twice, once
    in the save handler and once for the command line, so the line naming
    the database is written twice to the message channel; when no editor
    is active only the first lookup happens. *)
Theorem analyzeOnSave_logs_database_twice (w : World) (s : State)
    (found : string) :
  truthy (getConfiguration w "codechecker.executor" "runOnSave") = true ->
  (getCompileCommandsPath w s).1 = Some found ->
  let line := ">>> Database found at path: " +:+ found +:+ newline in
  (forall file, activeTextEditor w = Some file ->
     bridgeMessages (analyzeOnSave w s).2 =
       (bridgeMessages s ++ [line; line])%list) /\
  (activeTextEditor w = None ->
     bridgeMessages (analyzeOnSave w s).2 = (bridgeMessages s ++ [line])%list).
Proof.
  intros Hsave Hfound line.
  rewrite analyzeOnSave_run. cbv zeta. rewrite Hsave, Hfound.
  rewrite getCompileCommandsPath_run in Hfound |- *. cbn [fst snd] in *.
  unfold compileCommandsPath in Hfound. unfold compileCommandsMessages.
  destruct (workspaceFolders w) as [|folder folders] eqn:Hw;
    [discriminate Hfound|].
  rewrite Hfound. unfold analyzeCurrentFile. split.
  - intros file ->. rewrite analyzeFile_run. cbn [snd].
    cbn [databasePaths addBridgeMessages]. unfold analyzeCmdLine.
    rewrite Hw, Hfound. cbn [snd onManager bridgeMessages].
    unfold afterAnalyzeCmdLine, compileCommandsMessages.
    cbn [databasePaths addBridgeMessages]. rewrite Hw, Hfound.
    cbn [bridgeMessages addBridgeMessages]. rewrite <- app_assoc. reflexivity.
  - intros ->. reflexivity.
Qed.

(** X12: selecting several files while a folder is open and no database is
    found shows the warning once per file and submits nothing. *)
Theorem selected_files_warn_once_each (w : World) (files : list string)
    (s : State) :
  workspaceFolders w <> [] ->
  (getCompileCommandsPath w s).1 = None ->
  files <> [] ->
  warningMessages (selectAndAnalyzeFile w files s).2 =
    (warningMessages s ++ replicate (length files) noDatabaseWarning)%list /\
  executorManager (selectAndAnalyzeFile w files s).2 = executorManager s.
Proof.
  intros Hfolder Hnone Hfiles.
  rewrite getCompileCommandsPath_run in Hnone. cbn [fst] in Hnone.
  unfold compileCommandsPath in Hnone.
  destruct (workspaceFolders w) as [|folder folders] eqn:Hw; [contradiction|].
  unfold selectAndAnalyzeFile.
  destruct files as [|file0 files0]; [contradiction|].
  generalize (file0 :: files0). clear file0 files0 Hfiles. intros selected.
  assert (Hgen : forall s0, databasePaths s0 = databasePaths s ->
    warningMessages
      (forEach selected (fun file => analyzeFile w (Uri_file file)) s0).2 =
      (warningMessages s0 ++
       replicate (length selected) noDatabaseWarning)%list /\
    executorManager
      (forEach selected (fun file => analyzeFile w (Uri_file file)) s0).2 =
      executorManager s0).
  { induction selected as [|file selected IH]; intros s0 Hpaths.
    - cbn. rewrite app_nil_r. split; reflexivity.
    - cbn [forEach]. rewrite bind_run.
      destruct (IH (analyzeFile w (Uri_file file) s0).2) as [Hwarn Hmgr].
      { rewrite analyzeFile_paths. exact Hpaths. }
      rewrite Hwarn, Hmgr.
      rewrite analyzeFile_warnings, afterAnalyzeCmdLine_warnings.
      rewrite analyzeFile_manager, getAnalyzeCmdLine_run. cbn [fst].
      unfold analyzeCmdLine. rewrite Hw, Hpaths, Hnone.
      cbn [length replicate]. rewrite <- app_assoc. split; reflexivity. }
  apply Hgen. reflexivity.
Qed.

(** X13: until the configuration is read with a folder open, the bridge
    has no database paths: whatever is asked of it, and whichever folders
    are opened meanwhile, no database is found and no command line is
    formed. *)
Theorem no_paths_until_configured (cs : list (World * Command)) :
  (forall w c, (w, c) ∈ cs -> c = ChangeConfiguration ->
               workspaceFolders w = []) ->
  let s := performAll cs initialState in
  databasePaths s = [] /\
  forall w files,
    (getCompileCommandsPath w s).1 = None /\
    (getAnalyzeCmdLine w files s).1 = None.
Proof.
  intros Hcs s.
  assert (Hpaths : databasePaths s = []).
  { subst s.
    assert (Hgen : forall s0, databasePaths s0 = [] ->
              databasePaths (performAll cs s0) = []).
    { induction cs as [|[w c] cs IH]; intros s0 Hs0; [exact Hs0|].
      cbn [performAll]. apply IH.
      - intros w' c' Hin. apply Hcs. right. exact Hin.
      - assert (Hother : c <> ChangeConfiguration ->
                         databasePaths (perform w c s0).2 = []).
        { intros Hc. pose proof (perform_watching w c s0 Hc) as Hsame.
          unfold watching in Hsame. injection Hsame as _ _ Hp _ _ _.
          rewrite Hp. exact Hs0. }
        destruct c; try (apply Hother; discriminate).
        cbn [perform].
        rewrite (updateDatabasePaths_no_folder w s0); [exact Hs0|].
        apply (Hcs w ChangeConfiguration); [left|reflexivity]. }
    apply Hgen. reflexivity. }
  split; [exact Hpaths|]. intros w files.
  rewrite getCompileCommandsPath_run, getAnalyzeCmdLine_run. cbn [fst].
  unfold compileCommandsPath, analyzeCmdLine. rewrite Hpaths.
  destruct (workspaceFolders w); split; reflexivity.
Qed.

(** X14: [getAnalyzeCmdLine] forms a command line exactly when
    [getCompileCommandsPath] finds a database, and the command line then
    begins with the executable, [analyze], the quoted database that was
    found and the quoted output folder. *)
Theorem getAnalyzeCmdLine_uses_found_database (w : World) (files : list Uri)
    (s : State) :
  ((getAnalyzeCmdLine w files s).1 = None <->
   (getCompileCommandsPath w s).1 = None) /\
  (forall cmdLine, (getAnalyzeCmdLine w files s).1 = Some cmdLine ->
     exists folder found rest,
       head (workspaceFolders w) = Some folder /\
       (getCompileCommandsPath w s).1 = Some found /\
       cmdLine =
         executablePath w +:+ " analyze " +:+ quoted found +:+
         " --output " +:+ quoted (outputFolder w folder) +:+ " " +:+ rest).
Proof.
  rewrite getAnalyzeCmdLine_run, getCompileCommandsPath_run. cbn [fst].
  unfold analyzeCmdLine, compileCommandsPath.
  destruct (workspaceFolders w) as [|folder folders].
  { split; [reflexivity|]. intros cmdLine Hc. discriminate Hc. }
  destruct (firstExisting w (databasePaths s)) as [found|].
  2: { split; [reflexivity|]. intros cmdLine Hc. discriminate Hc. }
  split; [split; discriminate|]. intros cmdLine [= <-].
  eexists folder, found, _. split; [reflexivity|]. split; [reflexivity|].
  unfold analyzeCmdLineWith. cbn [join]. rewrite !append_assoc. reflexivity.
Qed.

(** X15: the warning refers the user to the logs, and the logs are there:
    whenever [getAnalyzeCmdLine] shows a warning, it is the one warning
    about the missing database, and the same call has written the heading
    and one line per database path to the message channel. *)
Theorem warning_comes_with_log (w : World) (files : list Uri) (s : State) :
  warningMessages (getAnalyzeCmdLine w files s).2 <> warningMessages s ->
  warningMessages (getAnalyzeCmdLine w files s).2 =
    (warningMessages s ++
     ["No compilation database found, CodeChecker not started - see logs for details"])%list /\
  (getAnalyzeCmdLine w files s).1 = None /\
  exists lines,
    bridgeMessages (getAnalyzeCmdLine w files s).2 =
      (bridgeMessages s ++
       (">>> No database found in the following paths:" +:+ newline)
       :: lines)%list /\
    length lines = length (databasePaths s).
Proof.
  rewrite getAnalyzeCmdLine_run. cbn [fst snd].
  rewrite afterAnalyzeCmdLine_warnings.
  unfold afterAnalyzeCmdLine, analyzeCmdLine, compileCommandsMessages.
  destruct (workspaceFolders w) as [|folder folders].
  { rewrite app_nil_r. intros Hne. contradiction. }
  destruct (firstExisting w (databasePaths s)) as [found|].
  { rewrite app_nil_r. intros Hne. contradiction. }
  intros _. split; [reflexivity|]. split; [reflexivity|].
  exists (map triedPathLine (databasePaths s)).
  split; [reflexivity|]. apply length_map.
Qed.

End Bridge.

(** ** The statements at concrete inputs *)

Lemma Sample_getConfig_local : readsOnlyItsSetting Sample.getConfig.
Proof.
  intros w1 w2 category name _ Hcfg. unfold Sample.getConfig.
  rewrite Hcfg. reflexivity.
Qed.

Lemma Sample_construct_withDatabase :
  construct Sample.getConfig Sample.pathJoin Sample.withDatabase =
  Sample.readyState.
Proof. vm_compute. reflexivity. Qed.

Lemma Sample_construct_noDatabase :
  construct Sample.getConfig Sample.pathJoin Sample.noDatabase =
  Sample.readyState.
Proof. vm_compute. reflexivity. Qed.

Lemma Sample_custom_database_differs :
  sameExceptSettings ["codechecker.backend.compilationDatabasePath"]
    Sample.withCustomDatabase Sample.withDatabase.
Proof.
  repeat (split; [reflexivity|]). intros name Hname.
  apply lookup_insert_ne. intros <-. apply Hname. left.
Qed.

Lemma Sample_log_settings_differ :
  sameExceptSettings ["codechecker.executor.logBuildCommand";
                      "codechecker.executor.logArguments"]
    Sample.withDatabase Sample.withLogSettings.
Proof.
  repeat (split; [reflexivity|]). intros name Hname. symmetry.
  cbn [configuration Sample.withLogSettings].
  rewrite !lookup_insert_ne; [reflexivity| |].
  - intros <-. apply Hname. right. left.
  - intros <-. apply Hname. left.
Qed.

(** C4 as worded fails: with no folder open no command line is formed and
    yet no warning is shown. *)
Lemma no_folder_no_warning :
  ~ (forall (w : World) (file : Uri) (s : State),
       (getAnalyzeCmdLine Sample.getConfig Sample.pathJoin Sample.numberToString w [file] s).1 = None ->
       length (warningMessages
                 (analyzeFile Sample.getConfig Sample.pathJoin Sample.numberToString w file s).2) =
       S (length (warningMessages s))).
Proof.
  intros Hall.
  specialize (Hall Sample.noFolder Sample.file initialState eq_refl).
  vm_compute in Hall. discriminate Hall.
Qed.

(** The save trigger without a database: nothing found, nothing shown. *)
Lemma save_without_database_is_silent :
  (getCompileCommandsPath Sample.noDatabase Sample.readyState).1 = None /\
  warningMessages
    (analyzeOnSave Sample.getConfig Sample.pathJoin Sample.numberToString Sample.noDatabase
       Sample.readyState).2 = [] /\
  executorManager
    (analyzeOnSave Sample.getConfig Sample.pathJoin Sample.numberToString Sample.noDatabase
       Sample.readyState).2 = emptyManager.
Proof. vm_compute. repeat split; reflexivity. Qed.

Lemma no_command_line_no_submission_witness :
  workspaceFolders Sample.noDatabase <> [] /\
  (getCompileCommandsPath Sample.noDatabase Sample.readyState).1 = None /\
  warningMessages
    (analyzeFile Sample.getConfig Sample.pathJoin Sample.numberToString Sample.noDatabase
       Sample.file Sample.readyState).2 = [noDatabaseWarning] /\
  executorManager
    (analyzeFile Sample.getConfig Sample.pathJoin Sample.numberToString Sample.noDatabase
       Sample.file Sample.readyState).2 = emptyManager.
Proof.
  assert (Hfolder : workspaceFolders Sample.noDatabase <> []) by discriminate.
  assert (Hnone : (getCompileCommandsPath Sample.noDatabase
                     Sample.readyState).1 = None) by reflexivity.
  destruct (no_command_line_no_submission Sample.getConfig Sample.pathJoin Sample.numberToString
              Sample.noDatabase [] Sample.file Sample.readyState)
    as (Hdb & _).
  destruct (Hdb Hfolder Hnone) as (_ & _ & Hwarn & Hmgr & _).
  split; [exact Hfolder|]. split; [exact Hnone|].
  split; [exact Hwarn|exact Hmgr].
Defined.

Lemma stopAnalysis_clears_and_cancels_witness :
  activeProcess (executorManager Sample.busyState) = Some Sample.analyzeUnit /\
  Manager.tagOf Sample.analyzeUnit = analyze /\
  queue (executorManager (stopAnalysis Sample.busyState).2) =
    [Sample.logUnit] /\
  runnerLog (executorManager (stopAnalysis Sample.busyState).2) =
    [Started Sample.analyzeUnit; CancelRequested Sample.analyzeUnit].
Proof.
  destruct (stopAnalysis_clears_and_cancels Sample.busyState)
    as (Hq & _ & Hcancel & _).
  split; [reflexivity|]. split; [reflexivity|].
  split; [exact Hq|].
  exact (Hcancel Sample.analyzeUnit eq_refl eq_refl).
Defined.

(** C2 as worded fails: with a folder open and no database, a
    whole-project request submits no unit at all. *)
Lemma analyzeProject_without_database_submits_nothing :
  ~ (forall (w : World) (s : State),
       exists unit : ScheduledProcess,
         executorManager
           (analyzeProject Sample.getConfig Sample.pathJoin
              Sample.numberToString w s).2 =
         Manager.addToQueue unit replace
           (Manager.stop analyze (executorManager s))).
Proof.
  intros Hall.
  destruct (Hall Sample.noDatabase Sample.readyState) as [unit Hunit].
  apply (f_equal activeProcess) in Hunit. vm_compute in Hunit.
  discriminate Hunit.
Qed.

Lemma analyzeProject_stops_then_replaces_witness :
  activeProcess (executorManager Sample.busyState) = Some Sample.analyzeUnit /\
  (getAnalyzeCmdLine Sample.getConfig Sample.pathJoin Sample.numberToString
     Sample.withDatabase [] (stopAnalysis Sample.busyState).2).1 =
    Some (analyzeCmdLineWith Sample.getConfig Sample.pathJoin
            Sample.numberToString Sample.withDatabase "/proj"
            "/proj/.codechecker/compile_commands.json" []) /\
  queue (executorManager
           (analyzeProject Sample.getConfig Sample.pathJoin
              Sample.numberToString Sample.withDatabase
              Sample.busyState).2) =
    [ {| commandLine :=
           analyzeCmdLineWith Sample.getConfig Sample.pathJoin
             Sample.numberToString Sample.withDatabase "/proj"
             "/proj/.codechecker/compile_commands.json" [];
         processParameters := {| processType := analyze |} |} ] /\
  activeProcess (executorManager
           (analyzeProject Sample.getConfig Sample.pathJoin
              Sample.numberToString Sample.withDatabase
              Sample.busyState).2) =
    Some Sample.analyzeUnit /\
  (getAnalyzeCmdLine Sample.getConfig Sample.pathJoin Sample.numberToString
     Sample.noDatabase [] (stopAnalysis Sample.busyState).2).1 = None /\
  queue (executorManager
           (analyzeProject Sample.getConfig Sample.pathJoin
              Sample.numberToString Sample.noDatabase
              Sample.busyState).2) = [Sample.logUnit].
Proof.
  assert (Hcmd : (getAnalyzeCmdLine Sample.getConfig Sample.pathJoin
                    Sample.numberToString Sample.withDatabase []
                    (stopAnalysis Sample.busyState).2).1 =
                 Some (analyzeCmdLineWith Sample.getConfig Sample.pathJoin
                         Sample.numberToString Sample.withDatabase "/proj"
                         "/proj/.codechecker/compile_commands.json" []))
    by (vm_compute; reflexivity).
  assert (Hnone : (getAnalyzeCmdLine Sample.getConfig Sample.pathJoin
                     Sample.numberToString Sample.noDatabase []
                     (stopAnalysis Sample.busyState).2).1 = None)
    by reflexivity.
  destruct (analyzeProject_stops_then_replaces Sample.getConfig
              Sample.pathJoin Sample.numberToString Sample.withDatabase
              Sample.busyState)
    as (_ & _ & _ & _ & _ & Hformed & _).
  destruct (Hformed _ Hcmd) as (_ & _ & _ & Hbusy & _).
  destruct (Hbusy Sample.analyzeUnit eq_refl) as (Hq & Ha & _).
  destruct (analyzeProject_stops_then_replaces Sample.getConfig
              Sample.pathJoin Sample.numberToString Sample.noDatabase
              Sample.busyState)
    as (Hstop & _ & _ & _ & Hnothing & _).
  split; [reflexivity|]. split; [exact Hcmd|]. split; [exact Hq|].
  split; [exact Ha|]. split; [exact Hnone|].
  rewrite (Hnothing Hnone), Hstop. reflexivity.
Defined.

Lemma analyzeFile_prepends_witness :
  (getAnalyzeCmdLine Sample.getConfig Sample.pathJoin Sample.numberToString
     Sample.withDatabase [Sample.file] Sample.busyState).1 =
    Some (analyzeCmdLineWith Sample.getConfig Sample.pathJoin
            Sample.numberToString Sample.withDatabase "/proj"
            "/proj/.codechecker/compile_commands.json" [Sample.file]) /\
  queue (executorManager
           (analyzeFile Sample.getConfig Sample.pathJoin
              Sample.numberToString Sample.withDatabase
              Sample.file Sample.busyState).2) =
    [analyzeProcess
       (analyzeCmdLineWith Sample.getConfig Sample.pathJoin
          Sample.numberToString Sample.withDatabase "/proj"
          "/proj/.codechecker/compile_commands.json" [Sample.file]);
     Sample.logUnit; Sample.analyzeUnit] /\
  activeProcess (executorManager
           (analyzeFile Sample.getConfig Sample.pathJoin
              Sample.numberToString Sample.withDatabase
              Sample.file Sample.busyState).2) =
    Some Sample.analyzeUnit /\
  Sample.uriFile "proj/main.c" = Sample.file /\
  executorManager
    (selectAndAnalyzeFile Sample.getConfig Sample.pathJoin
       Sample.numberToString Sample.uriFile Sample.withDatabase
       ["proj/main.c"] Sample.busyState).2 =
  executorManager
    (analyzeFile Sample.getConfig Sample.pathJoin Sample.numberToString
       Sample.withDatabase Sample.file Sample.busyState).2 /\
  showOpenDialog Sample.withPickedFile = Some [Sample.file] /\
  queue (executorManager
           (selectAndAnalyzeFile Sample.getConfig Sample.pathJoin
              Sample.numberToString Sample.uriFile Sample.withPickedFile
              [] Sample.busyState).2) =
    [analyzeProcess
       (analyzeCmdLineWith Sample.getConfig Sample.pathJoin
          Sample.numberToString Sample.withPickedFile "/proj"
          "/proj/.codechecker/compile_commands.json" [Sample.file]);
     Sample.logUnit; Sample.analyzeUnit].
Proof.
  assert (Hcmd : (getAnalyzeCmdLine Sample.getConfig Sample.pathJoin
                    Sample.numberToString Sample.withDatabase
                    [Sample.file] Sample.busyState).1 =
                 Some (analyzeCmdLineWith Sample.getConfig Sample.pathJoin
                         Sample.numberToString Sample.withDatabase "/proj"
                         "/proj/.codechecker/compile_commands.json"
                         [Sample.file]))
    by (vm_compute; reflexivity).
  assert (Hpicked : (getAnalyzeCmdLine Sample.getConfig Sample.pathJoin
                       Sample.numberToString Sample.withPickedFile
                       [Sample.file] Sample.busyState).1 =
                    Some (analyzeCmdLineWith Sample.getConfig Sample.pathJoin
                            Sample.numberToString Sample.withPickedFile
                            "/proj"
                            "/proj/.codechecker/compile_commands.json"
                            [Sample.file]))
    by (vm_compute; reflexivity).
  destruct (analyzeFile_prepends Sample.getConfig Sample.pathJoin
              Sample.numberToString Sample.uriFile
              Sample.withDatabase Sample.file Sample.busyState _ Hcmd)
    as (_ & _ & _ & Hbusy & _ & _ & Hpath & _).
  destruct (Hbusy Sample.analyzeUnit eq_refl) as (Hq & Ha & _).
  destruct (analyzeFile_prepends Sample.getConfig Sample.pathJoin
              Sample.numberToString Sample.uriFile
              Sample.withPickedFile Sample.file Sample.busyState _ Hpicked)
    as (_ & _ & _ & Hbusy' & _ & _ & _ & Hdialog & _).
  destruct (Hbusy' Sample.analyzeUnit eq_refl) as (Hq' & _).
  split; [exact Hcmd|]. split; [exact Hq|]. split; [exact Ha|].
  split; [reflexivity|]. split; [exact (Hpath "proj/main.c" eq_refl)|].
  split; [reflexivity|].
  rewrite (Hdialog eq_refl). exact Hq'.
Defined.

Lemma analyzeOnSave_gated_witness :
  (getCompileCommandsPath Sample.noDatabase Sample.readyState).1 = None /\
  executorManager
    (analyzeOnSave Sample.getConfig Sample.pathJoin Sample.numberToString Sample.noDatabase
       Sample.readyState).2 = executorManager Sample.readyState /\
  warningMessages
    (analyzeOnSave Sample.getConfig Sample.pathJoin Sample.numberToString Sample.noDatabase
       Sample.readyState).2 = warningMessages Sample.readyState.
Proof.
  assert (Hnone : (getCompileCommandsPath Sample.noDatabase
                     Sample.readyState).1 = None) by reflexivity.
  destruct (analyzeOnSave_gated Sample.getConfig Sample.pathJoin Sample.numberToString
              Sample.noDatabase Sample.readyState) as (Hclosed & _).
  split; [exact Hnone|]. exact (Hclosed (or_intror Hnone)).
Defined.

Lemma watched_path_fires_location_changed_witness :
  Some "/proj/.codechecker/compile_commands.json" ∈
    databasePaths
      (performAll Sample.getConfig Sample.pathJoin Sample.numberToString Sample.uriFile
         [(Sample.withDatabase, ChangeConfiguration)] initialState) /\
  Sample.matches "/proj/.codechecker/compile_commands.json"
                 "/proj/.codechecker/compile_commands.json" = true /\
  databaseLocationChanged
    (performAll Sample.getConfig Sample.pathJoin Sample.numberToString Sample.uriFile
       [(Sample.withDatabase, ChangeConfiguration)] initialState) <
  databaseLocationChanged
    (fileSystemEvent Sample.matches DidDelete
       "/proj/.codechecker/compile_commands.json"
       (performAll Sample.getConfig Sample.pathJoin Sample.numberToString Sample.uriFile
          [(Sample.withDatabase, ChangeConfiguration)] initialState)).2.
Proof.
  assert (Hin : Some "/proj/.codechecker/compile_commands.json" ∈
                databasePaths
                  (performAll Sample.getConfig Sample.pathJoin Sample.numberToString Sample.uriFile
                     [(Sample.withDatabase, ChangeConfiguration)]
                     initialState))
    by (apply list_elem_of_further, list_elem_of_here).
  destruct (watched_path_fires_location_changed Sample.getConfig
              Sample.pathJoin Sample.matches Sample.numberToString Sample.uriFile
              [(Sample.withDatabase, ChangeConfiguration)]
              "/proj/.codechecker/compile_commands.json"
              "/proj/.codechecker/compile_commands.json" DidDelete)
    as (Hfires & _).
  split; [exact Hin|]. split; [reflexivity|].
  exact (Hfires Hin eq_refl).
Defined.

Lemma compilationDatabasePath_setting_ignored_witness :
  readsOnlyItsSetting Sample.getConfig /\
  sameExceptSettings ["codechecker.backend.compilationDatabasePath"]
    Sample.withCustomDatabase Sample.withDatabase /\
  databasePaths
    (updateDatabasePaths Sample.getConfig Sample.pathJoin
       Sample.withCustomDatabase initialState).2 =
  databasePaths
    (updateDatabasePaths Sample.getConfig Sample.pathJoin
       Sample.withDatabase initialState).2.
Proof.
  destruct (compilationDatabasePath_setting_ignored Sample.getConfig
              Sample.pathJoin Sample.numberToString Sample.uriFile Sample.withCustomDatabase Sample.withDatabase
              Sample_getConfig_local Sample_custom_database_differs)
    as (_ & _ & _ & _ & Hsame).
  destruct (Hsame initialState) as (_ & Hpaths & _).
  split; [exact Sample_getConfig_local|].
  split; [exact Sample_custom_database_differs|exact Hpaths].
Defined.

Lemma getLogCmdLine_builds_with_make_witness :
  workspaceFolders Sample.withLogSettings = ["/proj"] /\
  readsOnlyItsSetting Sample.getConfig /\
  sameExceptSettings ["codechecker.executor.logBuildCommand";
                      "codechecker.executor.logArguments"]
    Sample.withDatabase Sample.withLogSettings /\
  getLogCmdLine Sample.getConfig Sample.pathJoin Sample.withLogSettings =
    Some ("CodeChecker log --output " +:+ dquote +:+
          "/proj/.codechecker/compile_commands.json" +:+ dquote +:+
          " --build " +:+ dquote +:+ "make" +:+ dquote) /\
  getLogCmdLine Sample.getConfig Sample.pathJoin Sample.withDatabase =
  getLogCmdLine Sample.getConfig Sample.pathJoin Sample.withLogSettings /\
  getLogCmdLine Sample.getConfig Sample.pathJoin Sample.noFolder = None.
Proof.
  destruct (getLogCmdLine_builds_with_make Sample.getConfig Sample.pathJoin
              Sample.withLogSettings) as (_ & Hshape & _).
  destruct (getLogCmdLine_builds_with_make Sample.getConfig Sample.pathJoin
              Sample.withDatabase) as (_ & _ & _ & _ & Hsame).
  destruct (getLogCmdLine_builds_with_make Sample.getConfig Sample.pathJoin
              Sample.noFolder) as (Hnone & _).
  split; [reflexivity|].
  split; [exact Sample_getConfig_local|].
  split; [exact Sample_log_settings_differ|].
  split; [rewrite (Hshape "/proj" [] eq_refl); vm_compute; reflexivity|].
  split; [exact (Hsame Sample_getConfig_local _ Sample_log_settings_differ)|].
  exact (Hnone eq_refl).
Defined.

(** ** Further statements at concrete inputs *)

Lemma getCompileCommandsPath_first_usable_witness :
  workspaceFolders Sample.withDatabase <> [] /\
  (getCompileCommandsPath Sample.withDatabase Sample.readyState).1 =
    Some "/proj/.codechecker/compile_commands.json".
Proof.
  assert (Hfolder : workspaceFolders Sample.withDatabase <> [])
    by discriminate.
  split; [exact Hfolder|].
  destruct (getCompileCommandsPath_first_usable Sample.withDatabase
              Sample.readyState Hfolder) as [Hsome _].
  apply Hsome. exists 1. split; [reflexivity|]. split; [discriminate|].
  split; [reflexivity|]. intros m q Hm Hq.
  destruct m as [|m]; [discriminate Hq|lia].
Defined.

Lemma getCompileCommandsPath_reports_witness :
  workspaceFolders Sample.noDatabase <> [] /\
  (getCompileCommandsPath Sample.noDatabase Sample.readyState).1 = None /\
  length (drop (length (bridgeMessages Sample.readyState))
               (bridgeMessages
                  (getCompileCommandsPath Sample.noDatabase
                     Sample.readyState).2)) = 4.
Proof.
  assert (Hfolder : workspaceFolders Sample.noDatabase <> [])
    by discriminate.
  assert (Hnone : (getCompileCommandsPath Sample.noDatabase
                     Sample.readyState).1 = None) by reflexivity.
  destruct (getCompileCommandsPath_reports Sample.noDatabase
              Sample.readyState) as (_ & _ & Hlisting).
  destruct (Hlisting Hfolder Hnone) as (Hlength & _).
  split; [exact Hfolder|]. split; [exact Hnone|exact Hlength].
Defined.

Lemma updateDatabasePaths_only_rewatches_witness :
  workspaceFolders Sample.withDatabase <> [] /\
  databaseLocationChanged
    (updateDatabasePaths Sample.getConfig Sample.pathJoin
       Sample.withDatabase Sample.readyState).2 = 2 /\
  (updateDatabasePaths Sample.getConfig Sample.pathJoin Sample.noFolder
     Sample.readyState).2 = Sample.readyState.
Proof.
  assert (Hfolder : workspaceFolders Sample.withDatabase <> [])
    by discriminate.
  destruct (updateDatabasePaths_only_rewatches Sample.getConfig
              Sample.pathJoin Sample.withDatabase Sample.readyState)
    as (_ & _ & _ & Hfires & _).
  destruct (updateDatabasePaths_only_rewatches Sample.getConfig
              Sample.pathJoin Sample.noFolder Sample.readyState)
    as (_ & _ & _ & _ & Hidle).
  split; [exact Hfolder|]. split; [exact (Hfires Hfolder)|].
  exact (Hidle eq_refl).
Defined.

Lemma updateDatabasePaths_grows_subscriptions_witness :
  workspaceFolders Sample.withDatabase = ["/proj"] /\
  length (databaseWatches
            (updateDatabasePaths Sample.getConfig Sample.pathJoin
               Sample.withDatabase Sample.readyState).2) = 2 /\
  databaseEvents
    (updateDatabasePaths Sample.getConfig Sample.pathJoin
       Sample.withDatabase Sample.readyState).2 = [0; 1; 2; 3; 4; 5; 6; 7].
Proof.
  destruct (updateDatabasePaths_grows_subscriptions Sample.getConfig
              Sample.pathJoin Sample.withDatabase Sample.readyState
              "/proj" [] eq_refl) as (_ & Hwatches & _ & Hevents & _).
  split; [reflexivity|]. split; [exact Hwatches|].
  rewrite Hevents, Hwatches. reflexivity.
Defined.

Lemma requests_leave_watching_alone_witness :
  AnalyzeProject <> ChangeConfiguration /\
  listeners
    (perform Sample.getConfig Sample.pathJoin Sample.numberToString Sample.uriFile Sample.withDatabase
       AnalyzeProject Sample.busyState).2 = listeners Sample.busyState /\
  databaseLocationChanged
    (perform Sample.getConfig Sample.pathJoin Sample.numberToString Sample.uriFile Sample.withDatabase
       AnalyzeProject Sample.busyState).2 = 1.
Proof.
  assert (Hc : AnalyzeProject <> ChangeConfiguration) by discriminate.
  destruct (requests_leave_watching_alone Sample.getConfig Sample.pathJoin Sample.numberToString Sample.uriFile
              Sample.withDatabase AnalyzeProject Sample.busyState Hc)
    as (_ & _ & _ & _ & Hlisteners & Hfired).
  split; [exact Hc|]. split; [exact Hlisteners|exact Hfired].
Defined.

Lemma database_resolution_order_witness :
  workspaceFolders Sample.withDatabase = ["/proj"] /\
  workspaceFolders Sample.withDatabase <> [] /\
  usable Sample.withDatabase "/proj/.codechecker/compile_commands.json" =
    true /\
  (getCompileCommandsPath Sample.withDatabase
     (updateDatabasePaths Sample.getConfig Sample.pathJoin
        Sample.withDatabase initialState).2).1 =
    Some "/proj/.codechecker/compile_commands.json".
Proof.
  assert (Hfolder : workspaceFolders Sample.withDatabase <> [])
    by discriminate.
  destruct (database_resolution_order Sample.getConfig Sample.pathJoin
              Sample.withDatabase Sample.withDatabase initialState
              "/proj" [] eq_refl Hfolder) as (_ & Hfallback).
  destruct Hfallback as (Hcommands & _).
  { intros p Hp. discriminate Hp. }
  split; [reflexivity|]. split; [exact Hfolder|]. split; [reflexivity|].
  exact (Hcommands eq_refl).
Defined.

Lemma log_output_is_analysis_input_witness :
  workspaceFolders Sample.withDatabase = ["/proj"] /\
  exists output,
    databasePaths
      (updateDatabasePaths Sample.getConfig Sample.pathJoin
         Sample.withDatabase initialState).2 !! 1 = Some (Some output) /\
    getLogCmdLine Sample.getConfig Sample.pathJoin Sample.withDatabase =
      Some (executablePath Sample.getConfig Sample.withDatabase +:+
            " log --output " +:+ quoted output +:+
            " --build " +:+ quoted "make").
Proof.
  destruct (log_output_is_analysis_input Sample.getConfig Sample.pathJoin
              Sample.withDatabase initialState "/proj" [] eq_refl)
    as (output & Hsecond & Hlog & _).
  split; [reflexivity|]. exists output. split; [exact Hsecond|exact Hlog].
Defined.

Lemma getAnalyzeCmdLine_files_suffix_witness :
  (getAnalyzeCmdLine Sample.getConfig Sample.pathJoin Sample.numberToString Sample.withDatabase []
     Sample.readyState).1 =
    Some (analyzeCmdLineWith Sample.getConfig Sample.pathJoin Sample.numberToString
            Sample.withDatabase "/proj"
            "/proj/.codechecker/compile_commands.json" []) /\
  [Sample.file] <> [] /\
  (getAnalyzeCmdLine Sample.getConfig Sample.pathJoin Sample.numberToString Sample.withDatabase
     [Sample.file] Sample.readyState).1 =
    Some (analyzeCmdLineWith Sample.getConfig Sample.pathJoin Sample.numberToString
            Sample.withDatabase "/proj"
            "/proj/.codechecker/compile_commands.json" [] +:+
          "--file " +:+ quoted "/proj/main.c").
Proof.
  assert (Hproject :
    (getAnalyzeCmdLine Sample.getConfig Sample.pathJoin Sample.numberToString Sample.withDatabase
       [] Sample.readyState).1 =
    Some (analyzeCmdLineWith Sample.getConfig Sample.pathJoin Sample.numberToString
            Sample.withDatabase "/proj"
            "/proj/.codechecker/compile_commands.json" []))
    by (vm_compute; reflexivity).
  assert (Hfiles : [Sample.file] <> []) by discriminate.
  destruct (getAnalyzeCmdLine_files_suffix Sample.getConfig Sample.pathJoin Sample.numberToString
              Sample.withDatabase [Sample.file] Sample.readyState)
    as (_ & Hsuffix).
  split; [exact Hproject|]. split; [exact Hfiles|].
  exact (Hsuffix _ Hproject Hfiles).
Defined.

Lemma analyzeOnSave_logs_database_twice_witness :
  truthy (getConfiguration Sample.withDatabase "codechecker.executor"
            "runOnSave") = true /\
  (getCompileCommandsPath Sample.withDatabase Sample.readyState).1 =
    Some "/proj/.codechecker/compile_commands.json" /\
  activeTextEditor Sample.withDatabase = Some Sample.file /\
  length (bridgeMessages
            (analyzeOnSave Sample.getConfig Sample.pathJoin Sample.numberToString
               Sample.withDatabase Sample.readyState).2) = 2.
Proof.
  assert (Hsave : truthy (getConfiguration Sample.withDatabase
                            "codechecker.executor" "runOnSave") = true)
    by (vm_compute; reflexivity).
  assert (Hfound : (getCompileCommandsPath Sample.withDatabase
                      Sample.readyState).1 =
                   Some "/proj/.codechecker/compile_commands.json")
    by reflexivity.
  destruct (analyzeOnSave_logs_database_twice Sample.getConfig
              Sample.pathJoin Sample.numberToString Sample.withDatabase Sample.readyState _
              Hsave Hfound) as (Htwice & _).
  split; [exact Hsave|]. split; [exact Hfound|]. split; [reflexivity|].
  rewrite (Htwice Sample.file eq_refl). reflexivity.
Defined.

Lemma selected_files_warn_once_each_witness :
  workspaceFolders Sample.noDatabase <> [] /\
  (getCompileCommandsPath Sample.noDatabase Sample.readyState).1 = None /\
  ["/proj/a.c"; "/proj/b.c"] <> [] /\
  warningMessages
    (selectAndAnalyzeFile Sample.getConfig Sample.pathJoin Sample.numberToString Sample.uriFile Sample.noDatabase
       ["/proj/a.c"; "/proj/b.c"] Sample.readyState).2 =
    [noDatabaseWarning; noDatabaseWarning].
Proof.
  assert (Hfolder : workspaceFolders Sample.noDatabase <> [])
    by discriminate.
  assert (Hnone : (getCompileCommandsPath Sample.noDatabase
                     Sample.readyState).1 = None) by reflexivity.
  assert (Hfiles : ["/proj/a.c"; "/proj/b.c"] <> []) by discriminate.
  destruct (selected_files_warn_once_each Sample.getConfig Sample.pathJoin Sample.numberToString Sample.uriFile
              Sample.noDatabase ["/proj/a.c"; "/proj/b.c"] Sample.readyState
              Hfolder Hnone Hfiles) as (Hwarn & _).
  split; [exact Hfolder|]. split; [exact Hnone|]. split; [exact Hfiles|].
  exact Hwarn.
Defined.

Lemma no_paths_until_configured_witness :
  (forall w c,
     (w, c) ∈ [(Sample.noFolder, ChangeConfiguration);
               (Sample.withDatabase, AnalyzeCurrentFile)] ->
     c = ChangeConfiguration -> workspaceFolders w = []) /\
  (getAnalyzeCmdLine Sample.getConfig Sample.pathJoin Sample.numberToString Sample.withDatabase
     [Sample.file]
     (performAll Sample.getConfig Sample.pathJoin Sample.numberToString Sample.uriFile
        [(Sample.noFolder, ChangeConfiguration);
         (Sample.withDatabase, AnalyzeCurrentFile)] initialState)).1 = None.
Proof.
  assert (Hcs : forall w c,
            (w, c) ∈ [(Sample.noFolder, ChangeConfiguration);
                      (Sample.withDatabase, AnalyzeCurrentFile)] ->
            c = ChangeConfiguration -> workspaceFolders w = []).
  { intros w c Hin Hc.
    apply elem_of_cons in Hin as [Hin|Hin].
    - injection Hin as -> _. reflexivity.
    - apply elem_of_cons in Hin as [Hin|Hin].
      + injection Hin as _ ->. discriminate Hc.
      + inversion Hin. }
  destruct (no_paths_until_configured Sample.getConfig Sample.pathJoin Sample.numberToString Sample.uriFile
              _ Hcs) as (_ & Hnone).
  split; [exact Hcs|].
  exact (proj2 (Hnone Sample.withDatabase [Sample.file])).
Defined.

Lemma getAnalyzeCmdLine_uses_found_database_witness :
  (getAnalyzeCmdLine Sample.getConfig Sample.pathJoin Sample.numberToString Sample.withDatabase
     [Sample.file] Sample.readyState).1 =
    Some (analyzeCmdLineWith Sample.getConfig Sample.pathJoin Sample.numberToString
            Sample.withDatabase "/proj"
            "/proj/.codechecker/compile_commands.json" [Sample.file]) /\
  exists rest,
    analyzeCmdLineWith Sample.getConfig Sample.pathJoin Sample.numberToString
      Sample.withDatabase "/proj"
      "/proj/.codechecker/compile_commands.json" [Sample.file] =
    "CodeChecker analyze " +:+
    quoted "/proj/.codechecker/compile_commands.json" +:+
    " --output " +:+ quoted "/proj/.codechecker" +:+ " " +:+ rest.
Proof.
  assert (Hcmd :
    (getAnalyzeCmdLine Sample.getConfig Sample.pathJoin Sample.numberToString Sample.withDatabase
       [Sample.file] Sample.readyState).1 =
    Some (analyzeCmdLineWith Sample.getConfig Sample.pathJoin Sample.numberToString
            Sample.withDatabase "/proj"
            "/proj/.codechecker/compile_commands.json" [Sample.file]))
    by (vm_compute; reflexivity).
  destruct (getAnalyzeCmdLine_uses_found_database Sample.getConfig
              Sample.pathJoin Sample.numberToString Sample.withDatabase [Sample.file]
              Sample.readyState) as (_ & Hshape).
  destruct (Hshape _ Hcmd) as (folder & found & rest & Hfolder & Hfound & Heq).
  split; [exact Hcmd|]. exists rest.
  injection Hfolder as <-. injection Hfound as <-. exact Heq.
Defined.

Lemma warning_comes_with_log_witness :
  warningMessages
    (getAnalyzeCmdLine Sample.getConfig Sample.pathJoin Sample.numberToString Sample.noDatabase
       [Sample.file] Sample.readyState).2 <>
    warningMessages Sample.readyState /\
  length (bridgeMessages
            (getAnalyzeCmdLine Sample.getConfig Sample.pathJoin Sample.numberToString
               Sample.noDatabase [Sample.file] Sample.readyState).2) = 4.
Proof.
  assert (Hwarned :
    warningMessages
      (getAnalyzeCmdLine Sample.getConfig Sample.pathJoin Sample.numberToString Sample.noDatabase
         [Sample.file] Sample.readyState).2 <>
    warningMessages Sample.readyState) by (vm_compute; discriminate).
  destruct (warning_comes_with_log Sample.getConfig Sample.pathJoin Sample.numberToString
              Sample.noDatabase [Sample.file] Sample.readyState Hwarned)
    as (_ & _ & lines & Hlog & Hlength).
  split; [exact Hwarned|].
  rewrite Hlog, length_app. cbn [length]. rewrite Hlength. reflexivity.
Defined.
